(** * Blogicum: the view layer of [blog/views.py]

    A shallow embedding of the twelve views of the blog application and
    of the framework primitives they are composed of (querysets,
    [get_object_or_404], [Paginator], the login decorators and the
    generic class-based views), with the data store passed explicitly. *)

From Stdlib Require Import ZArith Ascii String.
From stdpp Require Import base option list gmap fin_maps sorting strings.

(** ** Data model *)

(** Modelled from the spec: [blog/models.py] and the user model are not
    part of the sources, so the rows carry the fields the spec's data
    model lists.  Primary keys are the keys of the tables below. *)
Record User := {
  username : string;
  first_name : string;
  last_name : string;
  email : string;
  password : string
}.

Record Category := {
  category_slug : string;
  category_is_published : bool
}.

Record Post := {
  post_author : N;
  post_category : option N;
  post_location : option N;
  post_is_published : bool;
  post_pub_date : Z;
  post_title : string;
  post_text : string
}.

Record Comment := {
  comment_author : N;
  comment_post : N;
  comment_text : string;
  comment_created_at : Z
}.

(** A table maps primary keys to rows; a model instance is a row together
    with its primary key. *)
Record Store := {
  users : gmap N User;
  categories : gmap N Category;
  posts : gmap N Post;
  comments : gmap N Comment
}.

Definition set_users (f : gmap N User → gmap N User) (db : Store) : Store :=
  {| users := f (users db); categories := categories db;
     posts := posts db; comments := comments db |}.

Definition set_posts (f : gmap N Post → gmap N Post) (db : Store) : Store :=
  {| users := users db; categories := categories db;
     posts := f (posts db); comments := comments db |}.

Definition set_comments (f : gmap N Comment → gmap N Comment) (db : Store) : Store :=
  {| users := users db; categories := categories db;
     posts := posts db; comments := f (comments db) |}.

(** ** Querysets *)

Module QuerySet.

(** [Model.objects]: every instance of a table. *)
Definition objects {A} (t : gmap N A) : list (N * A) := map_to_list t.

Inductive GetResult (A : Type) :=
| GetOne (x : A)
| DoesNotExist
| MultipleObjectsReturned.
Arguments GetOne {A} x.
Arguments DoesNotExist {A}.
Arguments MultipleObjectsReturned {A}.

(** [queryset.get()]: the single match, or one of the two exceptions. *)
Definition get {A} (qs : list A) : GetResult A :=
  match qs with
  | [] => DoesNotExist
  | [x] => GetOne x
  | _ :: _ :: _ => MultipleObjectsReturned
  end.

(** Outcome of [get_object_or_404]: [DoesNotExist] becomes [Http404],
    [MultipleObjectsReturned] is not caught. *)
Inductive Lookup (A : Type) :=
| Found (x : A)
| Raise404
| RaiseMultiple.
Arguments Found {A} x.
Arguments Raise404 {A}.
Arguments RaiseMultiple {A}.

Definition get_object_or_404 {A} (qs : list A) (P : A → Prop)
    `{∀ x, Decision (P x)} : Lookup A :=
  match get (filter P qs) with
  | GetOne x => Found x
  | DoesNotExist => Raise404
  | MultipleObjectsReturned => RaiseMultiple
  end.

(** The lookup [pk=id]. *)
Definition pk_is {A} (id : N) (o : N * A) : Prop := o.1 = id.
#[global] Instance pk_is_dec {A} (id : N) (o : N * A) : Decision (pk_is id o).
Proof. unfold pk_is. apply _. Defined.

(** [order_by('-field')] for an integer-valued field. *)
Definition desc {A} (key : A → Z) : relation A := λ a b, (key b ≤ key a)%Z.
#[global] Instance desc_dec {A} (key : A → Z) a b : Decision (desc key a b).
Proof. unfold desc. apply _. Defined.

Definition order_by_desc {A} (key : A → Z) (qs : list A) : list A :=
  merge_sort (desc key) qs.

End QuerySet.
Import QuerySet.

(** ** Python's [int] on a string and [QueryDict.get] *)

Definition QueryDict := list (string * string).

(** [QueryDict.get(key)]: the last value given for the key, or [None]. *)
Definition QueryDict_get (key : string) (qd : QueryDict) : option string :=
  last (snd <$> filter (λ kv, kv.1 = key) qd).

Module PyInt.

(** The blanks [int] skips around an ASCII numeral: tab, line feed,
    vertical tab, form feed, carriage return and space. *)
Definition is_space (a : ascii) : bool :=
  let n := nat_of_ascii a in
  ((9 <=? n) && (n <=? 13)) || (n =? 32).

Definition digit_of (a : ascii) : option Z :=
  let n := nat_of_ascii a in
  if (48 <=? n) && (n <=? 57) then Some (Z.of_nat (n - 48)) else None.

Fixpoint lstrip (l : list ascii) : list ascii :=
  match l with
  | a :: l' => if is_space a then lstrip l' else l
  | [] => []
  end.

Definition strip (l : list ascii) : list ascii :=
  rev (lstrip (rev (lstrip l))).

(** Decimal digits, single underscores allowed between two digits. *)
Fixpoint digits (acc : Z) (after_digit : bool) (l : list ascii) : option Z :=
  match l with
  | [] => if after_digit then Some acc else None
  | a :: l' =>
      if Ascii.eqb a "_"%char then
        if after_digit then digits acc false l' else None
      else
        match digit_of a with
        | Some d => digits (10 * acc + d)%Z true l'
        | None => None
        end
  end.

(** [int(s)] for base 10 on ASCII text; [None] stands for [ValueError].
    Python also accepts decimal digits and blanks outside ASCII, and some
    interpreters refuse numerals of more than 4300 digits: this function
    is [int] on the strings [plain_text] describes below, and the
    statements that depend on what a query value parses to assume it of
    that value. *)
Definition int (s : string) : option Z :=
  match strip (list_ascii_of_string s) with
  | a :: l =>
      if Ascii.eqb a "-"%char then Z.opp <$> digits 0 false l
      else if Ascii.eqb a "+"%char then digits 0 false l
      else digits 0 false (a :: l)
  | [] => None
  end.

End PyInt.

(** ** [django.core.paginator] *)

Module Paginator.

Record Paginator (A : Type) := {
  object_list : list A;
  per_page : nat
}.
Arguments object_list {A} _.
Arguments per_page {A} _.

Record Page (A : Type) := {
  page_object_list : list A;
  number : nat;
  paginator : Paginator A
}.
Arguments page_object_list {A} _.
Arguments number {A} _.
Arguments paginator {A} _.

Section WithItems.
Context {A : Type}.

Definition count (p : Paginator A) : nat := length (object_list p).

(** [num_pages] with [orphans = 0] and [allow_empty_first_page = True]:
    [ceil(max(1, count) / per_page)]. *)
Definition num_pages (p : Paginator A) : nat :=
  let hits := Nat.max 1 (count p) in
  (hits + per_page p - 1) / per_page p.

Inductive Validated :=
| ValidNumber (n : nat)
| PageNotAnInteger
| EmptyPage.

(** [validate_number]: the argument is the raw query parameter. *)
Definition validate_number (p : Paginator A) (number : option string) : Validated :=
  match number with
  | None => PageNotAnInteger
  | Some s =>
      match PyInt.int s with
      | None => PageNotAnInteger
      | Some n =>
          if (n <? 1)%Z then EmptyPage
          else if (Z.of_nat (num_pages p) <? n)%Z then EmptyPage
          else ValidNumber (Z.to_nat n)
      end
  end.

(** [object_list[bottom:top]] for [0 <= bottom]. *)
Definition slice (l : list A) (bottom top : nat) : list A :=
  take (top - bottom) (drop bottom l).

(** [page(number)] for a number that [validate_number] accepted. *)
Definition page (p : Paginator A) (n : nat) : Page A :=
  let bottom := (n - 1) * per_page p in
  let top := bottom + per_page p in
  let top := if count p <=? top then count p else top in
  {| page_object_list := slice (object_list p) bottom top;
     number := n;
     paginator := p |}.

(** [get_page]: a bad number falls back to the first page, one out of
    range to the last. *)
Definition get_page (p : Paginator A) (number : option string) : Page A :=
  match validate_number p number with
  | ValidNumber n => page p n
  | PageNotAnInteger => page p 1
  | EmptyPage => page p (num_pages p)
  end.

End WithItems.
Arguments Validated : clear implicits.

End Paginator.

Import Paginator.

(** ** Requests and responses *)

Inductive Method := GET | HEAD | POST | PUT | PATCH | DELETE | OPTIONS | TRACE.

#[global] Instance Method_eq_dec : EqDecision Method.
Proof. solve_decision. Defined.

(** [request.user]: the anonymous user or the logged-in user's instance. *)
Inductive RequestUser :=
| AnonymousUser
| AuthenticatedUser (pk : N) (u : User).

Definition is_authenticated (ru : RequestUser) : bool :=
  match ru with AuthenticatedUser _ _ => true | AnonymousUser => false end.

(** [request.user == author]: model instances are equal when their primary
    keys are; the anonymous user equals no instance. *)
Definition user_eq (ru : RequestUser) (author : N) : bool :=
  match ru with
  | AuthenticatedUser pk _ => bool_decide (pk = author)
  | AnonymousUser => false
  end.

Record HttpRequest := {
  request_method : Method;
  request_user : RequestUser;
  request_GET : QueryDict;
  request_POST : QueryDict;
  request_path : string
}.

Inductive Url :=
| url_login                        (* the route named 'login' *)
| url_login_next (next : string)   (* the login page, with ?next= *)
| url_post_detail (id : N)         (* blog:post_detail *)
| url_profile (name : string).     (* blog:profile *)

Definition is_login_page (u : Url) : bool :=
  match u with url_login | url_login_next _ => true | _ => false end.

Inductive FormClass := UserCreationForm | UserEditForm | PostForm | CommentForm.

(** A form as the templates see it: unbound when [form_data] is [None],
    otherwise bound, with the errors validation found. *)
Record Form := {
  form_class : FormClass;
  form_instance : option N;
  form_data : option QueryDict;
  form_errors : list string
}.

Definition unbound (cls : FormClass) (instance : option N) : Form :=
  {| form_class := cls; form_instance := instance; form_data := None; form_errors := [] |}.

Definition is_valid (f : Form) : bool :=
  bool_decide (is_Some (form_data f)) && bool_decide (form_errors f = []).

(** The post of a listing with its [comment_count] annotation. *)
Record AnnotatedPost := {
  ap_pk : N;
  ap_post : Post;
  comment_count : nat
}.

(** The template context: one optional entry per key the views use. *)
Record Context := {
  ctx_form : option Form;
  ctx_page_obj : option (Page AnnotatedPost);
  ctx_post : option (N * Post);
  ctx_comments : option (list (N * Comment));
  ctx_category : option (N * Category);
  ctx_profile : option (N * User);
  ctx_comment : option (N * Comment)
}.

Definition ctx_empty : Context :=
  {| ctx_form := None; ctx_page_obj := None; ctx_post := None; ctx_comments := None;
     ctx_category := None; ctx_profile := None; ctx_comment := None |}.

Definition with_form (f : Form) (c : Context) : Context :=
  {| ctx_form := Some f; ctx_page_obj := ctx_page_obj c; ctx_post := ctx_post c;
     ctx_comments := ctx_comments c; ctx_category := ctx_category c;
     ctx_profile := ctx_profile c; ctx_comment := ctx_comment c |}.
Definition with_page_obj (p : Page AnnotatedPost) (c : Context) : Context :=
  {| ctx_form := ctx_form c; ctx_page_obj := Some p; ctx_post := ctx_post c;
     ctx_comments := ctx_comments c; ctx_category := ctx_category c;
     ctx_profile := ctx_profile c; ctx_comment := ctx_comment c |}.
Definition with_post (p : N * Post) (c : Context) : Context :=
  {| ctx_form := ctx_form c; ctx_page_obj := ctx_page_obj c; ctx_post := Some p;
     ctx_comments := ctx_comments c; ctx_category := ctx_category c;
     ctx_profile := ctx_profile c; ctx_comment := ctx_comment c |}.
Definition with_comments (l : list (N * Comment)) (c : Context) : Context :=
  {| ctx_form := ctx_form c; ctx_page_obj := ctx_page_obj c; ctx_post := ctx_post c;
     ctx_comments := Some l; ctx_category := ctx_category c;
     ctx_profile := ctx_profile c; ctx_comment := ctx_comment c |}.
Definition with_category (x : N * Category) (c : Context) : Context :=
  {| ctx_form := ctx_form c; ctx_page_obj := ctx_page_obj c; ctx_post := ctx_post c;
     ctx_comments := ctx_comments c; ctx_category := Some x;
     ctx_profile := ctx_profile c; ctx_comment := ctx_comment c |}.
Definition with_profile (x : N * User) (c : Context) : Context :=
  {| ctx_form := ctx_form c; ctx_page_obj := ctx_page_obj c; ctx_post := ctx_post c;
     ctx_comments := ctx_comments c; ctx_category := ctx_category c;
     ctx_profile := Some x; ctx_comment := ctx_comment c |}.
Definition with_comment (x : N * Comment) (c : Context) : Context :=
  {| ctx_form := ctx_form c; ctx_page_obj := ctx_page_obj c; ctx_post := ctx_post c;
     ctx_comments := ctx_comments c; ctx_category := ctx_category c;
     ctx_profile := ctx_profile c; ctx_comment := Some x |}.

Inductive HttpResponse :=
| render (template : string) (context : Context)
| redirect (to : Url)
| Http404
| HttpResponseNotAllowed (permitted : list Method)
| HttpOptions (allow : list Method)   (* the answer of [View.options] *)
| ServerError.                        (* an exception no view catches *)

(** A view that may write: it returns the response and the new store.
    [now] is the value [timezone.now()] has during the request. *)
Definition View := HttpRequest → Z → Store → HttpResponse * Store.

(** ** The forms *)

(** [blog/forms.py] is not part of the sources and [UserCreationForm] is the
    framework's.  What the views need of a form is taken as a parameter:
    the errors validation reports for submitted data (none: the form is
    valid), and the instance [save] builds or updates from that data. *)
Class Forms := {
  form_validate : FormClass → Store → option N → QueryDict → list string;
  UserCreationForm_new : QueryDict → User;
  UserEditForm_update : QueryDict → User → User;
  PostForm_new : Z → QueryDict → Post;
  PostForm_update : QueryDict → Post → Post;
  CommentForm_new : Z → QueryDict → Comment;
  CommentForm_update : QueryDict → Comment → Comment
}.

(** ** Shared query pieces *)

(** The join [category__is_published=True]. *)
Definition category__is_published (db : Store) (p : Post) : bool :=
  match post_category p with
  | Some c =>
      match categories db !! c with
      | Some cat => category_is_published cat
      | None => false
      end
  | None => false
  end.

(** [is_published=True, category__is_published=True, pub_date__lte=now]. *)
Definition published (db : Store) (now : Z) (o : N * Post) : Prop :=
  post_is_published o.2 = true ∧ category__is_published db o.2 = true
  ∧ (post_pub_date o.2 ≤ now)%Z.

#[global] Instance published_dec db now o : Decision (published db now o).
Proof. unfold published. apply _. Defined.

(** [post.comments]: the reverse side of the comment's [post] key. *)
Definition post_comments (db : Store) (post_id : N) : list (N * Comment) :=
  filter (λ c, comment_post c.2 = post_id) (objects (comments db)).

(** [annotate(comment_count=Count('comments'))]. *)
Definition annotate (db : Store) (qs : list (N * Post)) : list AnnotatedPost :=
  (λ o, {| ap_pk := o.1; ap_post := o.2;
           comment_count := length (post_comments db o.1) |}) <$> qs.

Definition by_pub_date (a : AnnotatedPost) : Z := post_pub_date (ap_post a).

(** The key the table hands out to a new row. *)
Definition next_pk {A} (t : gmap N A) : N := fresh (dom t).

(** ** The decorators *)

Definition login_required (view : View) : View := λ request now db,
  if is_authenticated (request_user request) then view request now db
  else (redirect (url_login_next (request_path request)), db).

Definition require_http_methods (permitted : list Method) (view : View) : View :=
  λ request now db,
    if decide (request_method request ∈ permitted) then view request now db
    else (HttpResponseNotAllowed permitted, db).

(** ** The views *)

Section Views.
Context `{F : Forms}.

Definition bind (cls : FormClass) (db : Store) (instance : option N)
    (data : QueryDict) : Form :=
  {| form_class := cls; form_instance := instance; form_data := Some data;
     form_errors := form_validate cls db instance data |}.

Definition registration : View := λ request now db,
  let template := "registration/registration_form.html" in
  if decide (request_method request = POST) then
    let form := bind UserCreationForm db None (request_POST request) in
    if is_valid form then
      let db' := set_users
        (insert (next_pk (users db)) (UserCreationForm_new (request_POST request))) db in
      (redirect url_login, db')
    else (render template (with_form form ctx_empty), db)
  else
    let form := unbound UserCreationForm None in
    (render template (with_form form ctx_empty), db).

(** The three lines every listing ends with: [Paginator(post_list, 10)],
    [request.GET.get('page')], [paginator.get_page(page_number)]. *)
Definition paginate (post_list : list AnnotatedPost) (request : HttpRequest)
    : Page AnnotatedPost :=
  let paginator := {| object_list := post_list; per_page := 10 |} in
  let page_number := QueryDict_get "page" (request_GET request) in
  get_page paginator page_number.

Definition index (request : HttpRequest) (now : Z) (db : Store) : HttpResponse :=
  let template := "blog/index.html" in
  let post_list :=
    order_by_desc by_pub_date
      (annotate db (filter (published db now) (objects (posts db)))) in
  let page_obj := paginate post_list request in
  render template (with_page_obj page_obj ctx_empty).

Definition post_detail (request : HttpRequest) (id : N) (now : Z) (db : Store)
    : HttpResponse :=
  let template := "blog/detail.html" in
  let lookup :=
    match request_user request with
    | AuthenticatedUser me _ =>
        get_object_or_404
          (filter (λ o, published db now o ∨ post_author o.2 = me) (objects (posts db)))
          (pk_is id)
    | AnonymousUser =>
        get_object_or_404 (filter (published db now) (objects (posts db))) (pk_is id)
    end in
  match lookup with
  | Found post =>
      let comments := post_comments db post.1 in
      let form := unbound CommentForm None in
      render template
        (with_post post (with_comments comments (with_form form ctx_empty)))
  | Raise404 => Http404
  | RaiseMultiple => ServerError
  end.

Definition category_posts (request : HttpRequest) (category_slug' : string)
    (now : Z) (db : Store) : HttpResponse :=
  let template := "blog/category.html" in
  match get_object_or_404
          (filter (λ c, category_is_published c.2 = true) (objects (categories db)))
          (λ c, category_slug c.2 = category_slug') with
  | Found category =>
      let post_list :=
        order_by_desc by_pub_date
          (annotate db
             (filter (λ o, post_category o.2 = Some category.1
                           ∧ post_is_published o.2 = true
                           ∧ (post_pub_date o.2 ≤ now)%Z)
                     (objects (posts db)))) in
      let page_obj := paginate post_list request in
      render template (with_category category (with_page_obj page_obj ctx_empty))
  | Raise404 => Http404
  | RaiseMultiple => ServerError
  end.

Definition profile (request : HttpRequest) (username' : string)
    (now : Z) (db : Store) : HttpResponse :=
  let template := "blog/profile.html" in
  match get_object_or_404 (objects (users db)) (λ u, username u.2 = username') with
  | Found author =>
      let post_list :=
        if user_eq (request_user request) author.1 then
          order_by_desc by_pub_date
            (annotate db (filter (λ o, post_author o.2 = author.1) (objects (posts db))))
        else
          order_by_desc by_pub_date
            (annotate db
               (filter (λ o, post_author o.2 = author.1 ∧ published db now o)
                       (objects (posts db)))) in
      let page_obj := paginate post_list request in
      render template (with_profile author (with_page_obj page_obj ctx_empty))
  | Raise404 => Http404
  | RaiseMultiple => ServerError
  end.

Definition edit_profile : View := login_required (λ request now db,
  let template := "blog/user.html" in
  match request_user request with
  | AuthenticatedUser me u =>
      if decide (request_method request = POST) then
        let form := bind UserEditForm db (Some me) (request_POST request) in
        if is_valid form then
          let u' := UserEditForm_update (request_POST request) u in
          (redirect (url_profile (username u')), set_users (insert me u') db)
        else (render template (with_form form ctx_empty), db)
      else
        let form := unbound UserEditForm (Some me) in
        (render template (with_form form ctx_empty), db)
  | AnonymousUser => (ServerError, db)
  end).

(** *** The generic class-based views *)

(** [LoginRequiredMixin.dispatch]. *)
Definition LoginRequiredMixin_dispatch (super_dispatch : View) : View :=
  λ request now db,
    if is_authenticated (request_user request) then super_dispatch request now db
    else (redirect (url_login_next (request_path request)), db).

(** [SingleObjectMixin.get_object] for [model = Post] and
    [pk_url_kwarg = 'post_id']. *)
Definition get_object (post_id : N) (db : Store) : Lookup (N * Post) :=
  get_object_or_404 (objects (posts db)) (pk_is post_id).

Definition form_view_methods : list Method := [GET; POST; PUT; HEAD; OPTIONS].
Definition delete_view_methods : list Method := [GET; POST; DELETE; HEAD; OPTIONS].

Definition PostCreateView_form_valid : View := λ request now db,
  match request_user request with
  | AuthenticatedUser me u =>
      let instance := PostForm_new now (request_POST request) in
      let instance :=
        {| post_author := me; post_category := post_category instance;
           post_location := post_location instance;
           post_is_published := post_is_published instance;
           post_pub_date := post_pub_date instance;
           post_title := post_title instance; post_text := post_text instance |} in
      (redirect (url_profile (username u)),
       set_posts (insert (next_pk (posts db)) instance) db)
  | AnonymousUser => (ServerError, db)
  end.

(** [View.dispatch] of [CreateView]: the handler named after the method. *)
Definition CreateView_dispatch : View := λ request now db,
  let template := "blog/create.html" in
  match request_method request with
  | GET | HEAD =>
      (render template (with_form (unbound PostForm None) ctx_empty), db)
  | POST | PUT =>
      let form := bind PostForm db None (request_POST request) in
      if is_valid form then PostCreateView_form_valid request now db
      else (render template (with_form form ctx_empty), db)
  | OPTIONS => (HttpOptions form_view_methods, db)
  | PATCH | DELETE | TRACE => (HttpResponseNotAllowed form_view_methods, db)
  end.

Definition PostCreateView : View :=
  LoginRequiredMixin_dispatch CreateView_dispatch.

Definition UpdateView_dispatch (post_id : N) : View := λ request now db,
  let template := "blog/create.html" in
  match request_method request with
  | GET | HEAD =>
      match get_object post_id db with
      | Found object =>
          (render template
             (with_post object (with_form (unbound PostForm (Some object.1)) ctx_empty)),
           db)
      | Raise404 => (Http404, db)
      | RaiseMultiple => (ServerError, db)
      end
  | POST | PUT =>
      match get_object post_id db with
      | Found object =>
          let form := bind PostForm db (Some object.1) (request_POST request) in
          if is_valid form then
            let object' := PostForm_update (request_POST request) object.2 in
            (redirect (url_post_detail object.1),
             set_posts (insert object.1 object') db)
          else (render template (with_post object (with_form form ctx_empty)), db)
      | Raise404 => (Http404, db)
      | RaiseMultiple => (ServerError, db)
      end
  | OPTIONS => (HttpOptions form_view_methods, db)
  | PATCH | DELETE | TRACE => (HttpResponseNotAllowed form_view_methods, db)
  end.

(** [PostUpdateView.dispatch], the first [dispatch] of the class. *)
Definition PostUpdateView (request : HttpRequest) (post_id : N) (now : Z)
    (db : Store) : HttpResponse * Store :=
  match get_object post_id db with
  | Found post =>
      if negb (user_eq (request_user request) (post_author post.2)) then
        (redirect (url_post_detail post.1), db)
      else LoginRequiredMixin_dispatch (UpdateView_dispatch post_id) request now db
  | Raise404 => (Http404, db)
  | RaiseMultiple => (ServerError, db)
  end.

(** Modelled from the spec: deleting a post takes its comments with it
    (the cascade is declared in [blog/models.py]). *)
Definition delete_post (id : N) (db : Store) : Store :=
  set_comments (filter (λ c, comment_post c.2 ≠ id)) (set_posts (delete id) db).

Definition DeleteView_dispatch (post_id : N) : View := λ request now db,
  let template := "blog/detail.html" in
  match request_method request with
  | GET | HEAD =>
      match get_object post_id db with
      | Found object => (render template (with_post object ctx_empty), db)
      | Raise404 => (Http404, db)
      | RaiseMultiple => (ServerError, db)
      end
  | POST | DELETE =>
      match get_object post_id db with
      | Found object =>
          match request_user request with
          | AuthenticatedUser _ u =>
              (redirect (url_profile (username u)), delete_post object.1 db)
          | AnonymousUser => (ServerError, db)
          end
      | Raise404 => (Http404, db)
      | RaiseMultiple => (ServerError, db)
      end
  | OPTIONS => (HttpOptions delete_view_methods, db)
  | PUT | PATCH | TRACE => (HttpResponseNotAllowed delete_view_methods, db)
  end.

(** [PostDeleteView.dispatch]. *)
Definition PostDeleteView (request : HttpRequest) (post_id : N) (now : Z)
    (db : Store) : HttpResponse * Store :=
  match get_object post_id db with
  | Found post =>
      if negb (user_eq (request_user request) (post_author post.2)) then
        (redirect (url_post_detail post.1), db)
      else LoginRequiredMixin_dispatch (DeleteView_dispatch post_id) request now db
  | Raise404 => (Http404, db)
  | RaiseMultiple => (ServerError, db)
  end.

(** *** Comments *)

Definition add_comment (request : HttpRequest) (post_id : N)
    : Z → Store → HttpResponse * Store :=
  login_required (require_http_methods [POST] (λ request now db,
    match get_object_or_404 (objects (posts db)) (pk_is post_id) with
    | Found post =>
        let form := bind CommentForm db None (request_POST request) in
        if is_valid form then
          match request_user request with
          | AuthenticatedUser me _ =>
              let comment := CommentForm_new now (request_POST request) in
              let comment :=
                {| comment_post := post.1; comment_author := me;
                   comment_text := comment_text comment;
                   comment_created_at := comment_created_at comment |} in
              (redirect (url_post_detail post_id),
               set_comments (insert (next_pk (comments db)) comment) db)
          | AnonymousUser => (ServerError, db)
          end
        else (redirect (url_post_detail post_id), db)
    | Raise404 => (Http404, db)
    | RaiseMultiple => (ServerError, db)
    end)) request.

(** The two lookups [edit_comment] and [delete_comment] start with. *)
Definition get_post_comment (post_id comment_id : N) (db : Store)
    : Lookup ((N * Post) * (N * Comment)) :=
  match get_object_or_404 (objects (posts db)) (pk_is post_id) with
  | Found post =>
      match get_object_or_404 (objects (comments db))
              (λ c, pk_is comment_id c ∧ comment_post c.2 = post.1) with
      | Found comment => Found (post, comment)
      | Raise404 => Raise404
      | RaiseMultiple => RaiseMultiple
      end
  | Raise404 => Raise404
  | RaiseMultiple => RaiseMultiple
  end.

Definition edit_comment (request : HttpRequest) (post_id comment_id : N)
    : Z → Store → HttpResponse * Store :=
  login_required (λ request now db,
    match get_post_comment post_id comment_id db with
    | Found (post, comment) =>
        if negb (user_eq (request_user request) (comment_author comment.2)) then
          (redirect (url_post_detail post_id), db)
        else
          let template := "blog/comment.html" in
          let context form :=
            with_form form (with_comment comment (with_post post ctx_empty)) in
          if decide (request_method request = POST) then
            let form := bind CommentForm db (Some comment.1) (request_POST request) in
            if is_valid form then
              let comment' := CommentForm_update (request_POST request) comment.2 in
              (redirect (url_post_detail post_id),
               set_comments (insert comment.1 comment') db)
            else (render template (context form), db)
          else
            let form := unbound CommentForm (Some comment.1) in
            (render template (context form), db)
    | Raise404 => (Http404, db)
    | RaiseMultiple => (ServerError, db)
    end) request.

Definition delete_comment (request : HttpRequest) (post_id comment_id : N)
    : Z → Store → HttpResponse * Store :=
  login_required (λ request now db,
    match get_post_comment post_id comment_id db with
    | Found (post, comment) =>
        if negb (user_eq (request_user request) (comment_author comment.2)) then
          (redirect (url_post_detail post_id), db)
        else if decide (request_method request = POST) then
          (redirect (url_post_detail post_id), set_comments (delete comment.1) db)
        else
          let template := "blog/comment.html" in
          (render template (with_comment comment (with_post post ctx_empty)), db)
    | Raise404 => (Http404, db)
    | RaiseMultiple => (ServerError, db)
    end) request.

End Views.

(** ** Sample data *)

Module Sample.

Definition field (name : string) (data : QueryDict) : string :=
  default "" (QueryDict_get name data).

(** The required fields that were left empty. *)
Definition missing (names : list string) (data : QueryDict) : list string :=
  filter (λ n, field n data = "") names.

Definition forms : Forms := {|
  form_validate cls _ _ data :=
    match cls with
    | UserCreationForm => missing ["username"; "password1"] data
    | UserEditForm => missing ["username"] data
    | PostForm => missing ["title"; "text"] data
    | CommentForm => missing ["text"] data
    end;
  UserCreationForm_new data :=
    {| username := field "username" data; first_name := ""; last_name := "";
       email := ""; password := field "password1" data |};
  UserEditForm_update data u :=
    {| username := field "username" data; first_name := field "first_name" data;
       last_name := field "last_name" data; email := field "email" data;
       password := password u |};
  PostForm_new now data :=
    {| post_author := 0; post_category := None; post_location := None;
       post_is_published := true; post_pub_date := now;
       post_title := field "title" data; post_text := field "text" data |};
  PostForm_update data p :=
    {| post_author := post_author p; post_category := post_category p;
       post_location := post_location p; post_is_published := post_is_published p;
       post_pub_date := post_pub_date p;
       post_title := field "title" data; post_text := field "text" data |};
  CommentForm_new now data :=
    {| comment_author := 0; comment_post := 0; comment_text := field "text" data;
       comment_created_at := now |};
  CommentForm_update data c :=
    {| comment_author := comment_author c; comment_post := comment_post c;
       comment_text := field "text" data;
       comment_created_at := comment_created_at c |}
|}.

Definition alice : User :=
  {| username := "alice"; first_name := "Alice"; last_name := ""; email := "";
     password := "a" |}.
Definition bob : User :=
  {| username := "bob"; first_name := "Bob"; last_name := ""; email := "";
     password := "b" |}.

Definition news : Category :=
  {| category_slug := "news"; category_is_published := false |}.
Definition travel : Category :=
  {| category_slug := "travel"; category_is_published := true |}.

(** Alice's public post. *)
Definition post1 : Post :=
  {| post_author := 1; post_category := Some 2%N; post_location := None;
     post_is_published := true; post_pub_date := 100;
     post_title := "Lisbon"; post_text := "..." |}.
(** Alice's draft: unpublished, in an unpublished category, dated ahead. *)
Definition post2 : Post :=
  {| post_author := 1; post_category := Some 1%N; post_location := None;
     post_is_published := false; post_pub_date := 5000;
     post_title := "Draft"; post_text := "..." |}.

Definition comment1 : Comment :=
  {| comment_author := 2; comment_post := 1; comment_text := "Nice";
     comment_created_at := 150 |}.

Definition db : Store :=
  {| users := <[2%N := bob]> (<[1%N := alice]> ∅);
     categories := <[2%N := travel]> (<[1%N := news]> ∅);
     posts := <[2%N := post2]> (<[1%N := post1]> ∅);
     comments := <[1%N := comment1]> ∅ |}.


Definition now : Z := 1000.

Definition request (m : Method) (u : RequestUser) (get post : QueryDict) : HttpRequest :=
  {| request_method := m; request_user := u; request_GET := get;
     request_POST := post; request_path := "/" |}.

Definition as_alice : RequestUser := AuthenticatedUser 1 alice.
Definition as_bob : RequestUser := AuthenticatedUser 2 bob.

End Sample.

(** ** Vocabulary of the statements *)

(** The spec's "publicly visible": the post's flag, the flag of the
    category it refers to, and a publication date that has come. *)
Definition publicly_visible (db : Store) (now : Z) (p : Post) : Prop :=
  post_is_published p = true
  ∧ (∃ c cat, post_category p = Some c ∧ categories db !! c = Some cat
              ∧ category_is_published cat = true)
  ∧ (post_pub_date p ≤ now)%Z.

(** The page a response hands to its template, and the whole listing the
    page was cut from. *)
Definition page_of (r : HttpResponse) : option (Page AnnotatedPost) :=
  match r with
  | render _ context => ctx_page_obj context
  | _ => None
  end.

Definition shown (r : HttpResponse) : list AnnotatedPost :=
  from_option page_object_list [] (page_of r).

Definition listing (r : HttpResponse) : list AnnotatedPost :=
  from_option (λ pg, object_list (paginator pg)) [] (page_of r).

(** The form a response renders, if any. *)
Definition form_of (r : HttpResponse) : option Form :=
  match r with
  | render _ context => ctx_form context
  | _ => None
  end.

(** The same request with another query string. *)
Definition with_GET (query : QueryDict) (request : HttpRequest) : HttpRequest :=
  {| request_method := request_method request; request_user := request_user request;
     request_GET := query; request_POST := request_POST request;
     request_path := request_path request |}.

(** Strings made of decimal digits only. *)
Definition all_digits (l : list ascii) : Prop :=
  Forall (λ a, is_Some (PyInt.digit_of a)) l.


(** A response that shows the submitted form again, with its errors. *)
Definition rerenders_with_errors (r : HttpResponse) (template : string)
    (data : QueryDict) : Prop :=
  ∃ context form,
    r = render template context ∧ ctx_form context = Some form
    ∧ form_data form = Some data ∧ form_errors form ≠ [].

(** The uniqueness constraints of the two columns the views look rows up
    by; they are declared with the models, outside the sources. *)
Definition username_unique (db : Store) : Prop :=
  ∀ i j u v, users db !! i = Some u → users db !! j = Some v →
             username u = username v → i = j.

Definition slug_unique (db : Store) : Prop :=
  ∀ i j c d, categories db !! i = Some c → categories db !! j = Some d →
             category_slug c = category_slug d → i = j.

(** The number of comments of a post, as [Count('comments')] counts. *)
Definition comments_of (db : Store) (post_id : N) : nat :=
  length (post_comments db post_id).

(** Newest first: no post stands before one published later. *)
Definition newest_first (l : list AnnotatedPost) : Prop :=
  ∀ i j a b, i ≤ j → l !! i = Some a → l !! j = Some b →
             (post_pub_date (ap_post b) ≤ post_pub_date (ap_post a))%Z.

(** The three views that show a page of posts. *)
Definition listing_view (request : HttpRequest) (now : Z) (db : Store)
    (r : HttpResponse) : Prop :=
  r = index request now db
  ∨ (∃ slug, r = category_posts request slug now db)
  ∨ (∃ name, r = profile request name now db).


(** Two stores that differ at most in the row stored under one key. *)
Definition same_rows_but {A} (k : N) (t t' : gmap N A) : Prop :=
  ∀ j, j ≠ k → t' !! j = t !! j.

(** ** Properties of the framework primitives *)

Section Primitives.
Context {A : Type}.
Implicit Types (t : gmap N A) (l : list A).

Lemma elem_of_objects t k v : (k, v) ∈ objects t ↔ t !! k = Some v.
Proof. apply elem_of_map_to_list. Qed.

Lemma NoDup_objects t : NoDup (objects t).
Proof. apply NoDup_map_to_list. Qed.

Lemma get_object_none l (P : A → Prop) `{∀ x, Decision (P x)} :
  (∀ x, x ∈ l → ¬ P x) → get_object_or_404 l P = Raise404.
Proof.
  intros Hno. unfold get_object_or_404.
  destruct (filter P l) as [|x l'] eqn:E; [done|].
  assert (x ∈ filter P l) as Hx by (rewrite E; left).
  apply list_elem_of_filter in Hx as [HP Hin]. by destruct (Hno x Hin).
Qed.

Lemma get_object_one l (P : A → Prop) `{∀ x, Decision (P x)} x :
  NoDup l → x ∈ l → P x → (∀ y, y ∈ l → P y → y = x) →
  get_object_or_404 l P = Found x.
Proof.
  intros Hnd Hin HP Huniq. unfold get_object_or_404.
  assert (NoDup (filter P l)) as Hnd' by by apply NoDup_filter.
  assert (x ∈ filter P l) as Hx by (apply list_elem_of_filter; done).
  assert (∀ y, y ∈ filter P l → y = x) as Hall.
  { intros y [? ?]%list_elem_of_filter. by apply Huniq. }
  destruct (filter P l) as [|a [|b l']]; simpl.
  - by apply elem_of_nil in Hx.
  - rewrite (Hall a); [done | left].
  - exfalso. assert (a = x) as -> by (apply Hall; left).
    assert (b = x) as -> by (apply Hall; right; left).
    apply NoDup_cons in Hnd' as [Hnotin _]. apply Hnotin. left.
Qed.

End Primitives.

Section PrimaryKeys.
Context {A : Type}.
Implicit Types (t : gmap N A).

(** A lookup by primary key on a filtered table finds the row stored
    under the key when the filter keeps it, and nothing otherwise. *)
Lemma get_pk_filter t (P : N * A → Prop) `{∀ x, Decision (P x)} id :
  get_object_or_404 (filter P (objects t)) (pk_is id) =
    match t !! id with
    | Some r => if decide (P (id, r)) then Found (id, r) else Raise404
    | None => Raise404
    end.
Proof.
  destruct (t !! id) as [r|] eqn:E.
  - destruct (decide (P (id, r))) as [HP|HP].
    + apply get_object_one.
      * apply NoDup_filter, NoDup_objects.
      * apply list_elem_of_filter. split; [done|]. by apply elem_of_objects.
      * done.
      * intros [k v] [_ Hin]%list_elem_of_filter Hk. unfold pk_is in Hk. simpl in Hk.
        subst k. apply elem_of_objects in Hin. congruence.
    + apply get_object_none.
      intros [k v] [HPv Hin]%list_elem_of_filter Hk. unfold pk_is in Hk. simpl in Hk.
      subst k. apply elem_of_objects in Hin. congruence.
  - apply get_object_none.
    intros [k v] [_ Hin]%list_elem_of_filter Hk. unfold pk_is in Hk. simpl in Hk.
    subst k. apply elem_of_objects in Hin. congruence.
Qed.

Lemma get_pk_and t (Q : N * A → Prop) `{∀ x, Decision (Q x)} id :
  get_object_or_404 (objects t) (λ o, pk_is id o ∧ Q o) =
    match t !! id with
    | Some r => if decide (Q (id, r)) then Found (id, r) else Raise404
    | None => Raise404
    end.
Proof.
  destruct (t !! id) as [r|] eqn:E.
  - destruct (decide (Q (id, r))) as [HQ|HQ].
    + apply get_object_one.
      * apply NoDup_objects.
      * by apply elem_of_objects.
      * done.
      * intros [k v] Hin [Hk _]. unfold pk_is in Hk. simpl in Hk.
        subst k. apply elem_of_objects in Hin. congruence.
    + apply get_object_none.
      intros [k v] Hin [Hk HQv]. unfold pk_is in Hk. simpl in Hk.
      subst k. apply elem_of_objects in Hin. congruence.
  - apply get_object_none.
    intros [k v] Hin [Hk _]. unfold pk_is in Hk. simpl in Hk.
    subst k. apply elem_of_objects in Hin. congruence.
Qed.

Lemma get_pk t id :
  get_object_or_404 (objects t) (pk_is id) =
    match t !! id with Some r => Found (id, r) | None => Raise404 end.
Proof.
  destruct (t !! id) as [r|] eqn:E.
  - apply get_object_one.
    + apply NoDup_objects.
    + by apply elem_of_objects.
    + done.
    + intros [k v] Hin Hk. unfold pk_is in Hk. simpl in Hk.
      subst k. apply elem_of_objects in Hin. congruence.
  - apply get_object_none.
    intros [k v] Hin Hk. unfold pk_is in Hk. simpl in Hk.
    subst k. apply elem_of_objects in Hin. congruence.
Qed.

End PrimaryKeys.

(** ** Listings *)

Section Listings.
Implicit Types (db : Store) (a : AnnotatedPost) (request : HttpRequest).

Lemma get_object_found {A} (l : list A) (P : A → Prop) `{∀ x, Decision (P x)} x :
  get_object_or_404 l P = Found x → x ∈ l ∧ P x.
Proof.
  unfold get_object_or_404. intros Hget.
  destruct (filter P l) as [|y [|z l']] eqn:E; simpl in Hget; try discriminate.
  injection Hget as ->.
  assert (x ∈ filter P l) as Hx by (rewrite E; left).
  apply list_elem_of_filter in Hx. tauto.
Qed.

Lemma elem_of_order_by_desc {A} (key : A → Z) (l : list A) x :
  x ∈ order_by_desc key l ↔ x ∈ l.
Proof. unfold order_by_desc. by rewrite merge_sort_Permutation. Qed.

Lemma length_order_by_desc {A} (key : A → Z) (l : list A) :
  length (order_by_desc key l) = length l.
Proof. unfold order_by_desc. by rewrite merge_sort_Permutation. Qed.

Lemma elem_of_annotate db qs a :
  a ∈ annotate db qs ↔
    (ap_pk a, ap_post a) ∈ qs ∧ comment_count a = comments_of db (ap_pk a).
Proof.
  unfold annotate. rewrite list_elem_of_fmap. split.
  - intros [[k v] [-> Hin]]. simpl. by split.
  - intros [Hin Hc]. exists (ap_pk a, ap_post a). split; [|done].
    destruct a as [k v c]. simpl in *. by rewrite Hc.
Qed.

(** What it means to be in a sorted, annotated, filtered post table. *)
Lemma elem_of_post_list db (P : N * Post → Prop) `{∀ o, Decision (P o)} a :
  a ∈ order_by_desc by_pub_date (annotate db (filter P (objects (posts db)))) ↔
    P (ap_pk a, ap_post a) ∧ posts db !! ap_pk a = Some (ap_post a)
    ∧ comment_count a = comments_of db (ap_pk a).
Proof.
  rewrite elem_of_order_by_desc, elem_of_annotate, list_elem_of_filter,
    elem_of_objects. tauto.
Qed.

Lemma elem_of_slice {A} (l : list A) bottom top x :
  x ∈ slice l bottom top → x ∈ l.
Proof.
  unfold slice. intros Hx.
  apply (subseteq_take (top - bottom)) in Hx. by apply (subseteq_drop bottom) in Hx.
Qed.


Lemma paginator_get_page {A} (p : Paginator A) number' :
  paginator (get_page p number') = p.
Proof. unfold get_page. by destruct (validate_number p number'). Qed.

Lemma elem_of_get_page {A} (p : Paginator A) number' x :
  x ∈ page_object_list (get_page p number') → x ∈ object_list p.
Proof.
  unfold get_page.
  destruct (validate_number p number'); simpl; apply elem_of_slice.
Qed.



(** The page a view shows is cut from its listing. *)
Lemma shown_listing (r : HttpResponse) a :
  (∃ post_list request, page_of r = Some (paginate post_list request)) →
  a ∈ shown r → a ∈ listing r.
Proof.
  intros (post_list & request & Hr). unfold shown, listing. rewrite Hr. simpl.
  unfold paginate. rewrite paginator_get_page. apply elem_of_get_page.
Qed.

Lemma published_visible db now k p :
  published db now (k, p) → publicly_visible db now p.
Proof.
  intros (Hpub & Hcat & Hdate). simpl in *. repeat split; [done| |done].
  unfold category__is_published in Hcat.
  destruct (post_category p) as [c|]; [|done].
  destruct (categories db !! c) as [cat|] eqn:E; [|done].
  by exists c, cat.
Qed.

End Listings.

(** ** Visibility of posts, categories and comments *)

Section Visibility.
Implicit Types (db : Store) (a : AnnotatedPost) (request : HttpRequest).

Lemma visible_published db now k p :
  publicly_visible db now p → published db now (k, p).
Proof.
  intros (Hpub & (c & cat & Hc & Hcat & Hflag) & Hdate).
  repeat split; simpl; [done| |done].
  unfold category__is_published. by rewrite Hc, Hcat.
Qed.

Lemma paginate_elem post_list request a :
  a ∈ page_object_list (paginate post_list request)
  ∨ a ∈ object_list (paginator (paginate post_list request)) →
  a ∈ post_list.
Proof.
  unfold paginate. rewrite paginator_get_page. simpl.
  intros [Hin|Hin]; [|done]. by apply elem_of_get_page in Hin.
Qed.

(** C1: a post on the page or in the listing of [index], of
    [category_posts], or of a [profile] viewed by someone other than the
    profile's owner is a stored post that is published, whose category is
    published, and whose publication date is not after the time of the
    query. *)
Theorem listed_posts_are_public request now db a :
  (a ∈ shown (index request now db) ∨ a ∈ listing (index request now db) →
     posts db !! ap_pk a = Some (ap_post a)
     ∧ publicly_visible db now (ap_post a))
  ∧ (∀ slug,
       a ∈ shown (category_posts request slug now db)
       ∨ a ∈ listing (category_posts request slug now db) →
       posts db !! ap_pk a = Some (ap_post a)
       ∧ publicly_visible db now (ap_post a))
  ∧ (∀ name,
       (∀ k u, users db !! k = Some u → username u = name →
               user_eq (request_user request) k = false) →
       a ∈ shown (profile request name now db)
       ∨ a ∈ listing (profile request name now db) →
       posts db !! ap_pk a = Some (ap_post a)
       ∧ publicly_visible db now (ap_post a)).
Proof.
  split; [|split].
  - unfold index, shown, listing. simpl. intros Hin.
    apply paginate_elem, elem_of_post_list in Hin as (Hpub & Hrow & _).
    eauto using published_visible.
  - intros slug. unfold category_posts, shown, listing.
    destruct (get_object_or_404 _ _) as [[c cat]| |] eqn:Hcat; simpl;
      try (intros [[]%elem_of_nil|[]%elem_of_nil]).
    apply get_object_found in Hcat as [[Hflag Hc]%list_elem_of_filter _].
    apply elem_of_objects in Hc. simpl in Hflag.
    intros Hin.
    apply paginate_elem, elem_of_post_list in Hin as ((Hpc & Hpub & Hdate) & Hrow & _).
    simpl in *. split; [done|]. repeat split; [done| |done].
    by exists c, cat.
  - intros name Hother. unfold profile, shown, listing.
    destruct (get_object_or_404 _ _) as [[k u]| |] eqn:Hauthor; simpl;
      try (intros [[]%elem_of_nil|[]%elem_of_nil]).
    apply get_object_found in Hauthor as [Hu Hname].
    apply elem_of_objects in Hu. simpl in Hname.
    rewrite (Hother k u Hu Hname). intros Hin.
    apply paginate_elem, elem_of_post_list in Hin as ((_ & Hpub) & Hrow & _).
    eauto using published_visible.
Qed.

(** C8: when the slug belongs to no category, or to a category that is
    not published, [category_posts] answers not-found.  The slug column
    is unique. *)
Theorem category_posts_not_found request slug now db :
  slug_unique db →
  (¬ (∃ k c, categories db !! k = Some c ∧ category_slug c = slug))
  ∨ (∃ k c, categories db !! k = Some c ∧ category_slug c = slug
            ∧ category_is_published c = false) →
  category_posts request slug now db = Http404.
Proof.
  intros Huniq Hslug. unfold category_posts.
  rewrite get_object_none; [done|].
  intros [k c] [Hflag Hin]%list_elem_of_filter Hs.
  apply elem_of_objects in Hin. simpl in *.
  destruct Hslug as [Hnone|(k' & c' & Hin' & Hs' & Hflag')].
  - apply Hnone. by exists k, c.
  - assert (k = k') as -> by (eapply Huniq; eauto; congruence).
    congruence.
Qed.

(** C9: the context of a rendered [post_detail] carries the post and
    exactly the stored comments that refer to it, each once, whoever
    asks; and any visitor, logged in or not, is shown a publicly
    visible post. *)
Theorem post_detail_comments request id now db :
  (∀ template context,
     post_detail request id now db = render template context →
     ∃ p cs, ctx_post context = Some (id, p) ∧ posts db !! id = Some p
             ∧ ctx_comments context = Some cs ∧ NoDup cs
             ∧ ∀ k c, (k, c) ∈ cs ↔
                        comments db !! k = Some c ∧ comment_post c = id)
  ∧ (∀ p, posts db !! id = Some p → publicly_visible db now p →
          ∃ context, post_detail request id now db
                     = render "blog/detail.html" context).
Proof.
  split.
  - intros template context. unfold post_detail.
    assert (∀ lookup : Lookup (N * Post),
              (∀ o, lookup = Found o → o.1 = id ∧ posts db !! id = Some o.2) →
              match lookup with
              | Found post =>
                  render "blog/detail.html"
                    (with_post post
                       (with_comments (post_comments db post.1)
                          (with_form (unbound CommentForm None) ctx_empty)))
              | Raise404 => Http404
              | RaiseMultiple => ServerError
              end = render template context →
              ∃ p cs, ctx_post context = Some (id, p) ∧ posts db !! id = Some p
                      ∧ ctx_comments context = Some cs ∧ NoDup cs
                      ∧ ∀ k c, (k, c) ∈ cs ↔
                                 comments db !! k = Some c ∧ comment_post c = id)
      as Hgen.
    { intros [[k p]| |] Hfound Heq; try discriminate.
      destruct (Hfound _ eq_refl) as [Hk Hp]. simpl in *. subst k.
      injection Heq as _ <-. simpl.
      exists p, (post_comments db id).
      split; [done|]. split; [done|]. split; [done|]. split.
      - apply NoDup_filter, NoDup_objects.
      - intros k c. unfold post_comments.
        rewrite list_elem_of_filter, elem_of_objects. simpl. tauto. }
    apply Hgen. intros [k p] Hfound.
    destruct (request_user request); rewrite get_pk_filter in Hfound;
      destruct (posts db !! id) eqn:E; try discriminate;
      case_decide; try discriminate; by injection Hfound as <- <-.
  - intros p Hp Hvis. unfold post_detail.
    destruct (request_user request); rewrite get_pk_filter, Hp.
    + rewrite decide_True; [by eexists|]. apply visible_published, Hvis.
    + rewrite decide_True; [by eexists|]. left. apply visible_published, Hvis.
Qed.

End Visibility.

(** ** Pages *)

Section Pages.
Context {A : Type}.
Implicit Types (p : Paginator A) (l : list A).

Lemma num_pages_bounds p :
  0 < per_page p →
  1 ≤ num_pages p ∧ count p ≤ num_pages p * per_page p
  ∧ (num_pages p - 1) * per_page p < Nat.max 1 (count p).
Proof.
  intros Hper. unfold num_pages. simpl.
  set (h := Nat.max 1 (count p)). set (k := per_page p) in *.
  pose proof (Nat.div_mod_eq (h + k - 1) k) as Hdiv.
  pose proof (Nat.mod_upper_bound (h + k - 1) k ltac:(lia)) as Hmod.
  assert (1 ≤ h ∧ count p ≤ h) as [? ?] by (unfold h; lia).
  set (q := (h + k - 1) / k) in *. set (r := (h + k - 1) mod k) in *.
  assert (1 ≤ q) by nia.
  repeat split; [done|nia|nia].
Qed.




(** Every item of the list is on one of the pages. *)
Lemma elem_on_some_page p x :
  0 < per_page p → x ∈ object_list p →
  ∃ n, 1 ≤ n ≤ num_pages p ∧ x ∈ page_object_list (page p n).
Proof.
  intros Hper [i Hi]%list_elem_of_lookup.
  pose proof (lookup_lt_Some _ _ _ Hi) as Hlt.
  destruct (num_pages_bounds p Hper) as (H1 & Hc & _). unfold count in *.
  set (k := per_page p) in *.
  pose proof (Nat.div_mod_eq i k) as Hdiv.
  pose proof (Nat.mod_upper_bound i k ltac:(lia)) as Hmod.
  set (q := i / k) in *. set (r := i mod k) in *.
  exists (q + 1). split; [nia|].
  unfold page, slice. simpl. fold k. unfold count.
  replace (q + 1 - 1) with q by lia.
  apply list_elem_of_lookup. exists r.
  rewrite lookup_take_lt.
  - rewrite lookup_drop. by replace (q * k + r) with i by lia.
  - destruct (length (object_list p) <=? q * k + k) eqn:E; [|lia].
    apply Nat.leb_le in E. lia.
Qed.

(** A number within range is answered with that page. *)
Lemma get_page_valid p s n :
  PyInt.int s = Some (Z.of_nat n) → 1 ≤ n ≤ num_pages p →
  get_page p (Some s) = page p n.
Proof.
  intros Hs Hn. unfold get_page, validate_number. rewrite Hs.
  replace (Z.of_nat n <? 1)%Z with false by (symmetry; apply Z.ltb_ge; lia).
  replace (Z.of_nat (num_pages p) <? Z.of_nat n)%Z with false
    by (symmetry; apply Z.ltb_ge; lia).
  by rewrite Nat2Z.id.
Qed.

(** A list that fits on one page is shown whole, whatever is asked for. *)
Lemma single_page p number' :
  0 < per_page p → count p ≤ per_page p →
  page_object_list (get_page p number') = object_list p.
Proof.
  intros Hper Hfit. destruct (num_pages_bounds p Hper) as (H1 & _ & Hlt).
  assert (num_pages p = 1) as Hone by nia.
  assert (page_object_list (page p 1) = object_list p) as Hpage.
  { unfold page, slice. simpl.
    replace (count p <=? per_page p) with true by (symmetry; by apply Nat.leb_le).
    apply take_ge. unfold count. simpl. lia. }
  unfold get_page, validate_number.
  destruct number' as [s|]; [|done].
  destruct (PyInt.int s) as [n|]; [|done].
  destruct (n <? 1)%Z eqn:E1; [by rewrite Hone|].
  destruct (Z.of_nat (num_pages p) <? n)%Z eqn:E2; [by rewrite Hone|].
  apply Z.ltb_ge in E1, E2. by replace (Z.to_nat n) with 1 by lia.
Qed.

End Pages.

(** ** Page numbers as query strings *)

Section PageNumbers.

Lemma digit_not_space a d : PyInt.digit_of a = Some d → PyInt.is_space a = false.
Proof.
  unfold PyInt.digit_of, PyInt.is_space. cbv zeta.
  set (n := nat_of_ascii a).
  destruct (48 <=? n) eqn:E1; destruct (n <=? 57) eqn:E2; cbn [andb];
    try discriminate.
  intros _. apply Nat.leb_le in E1.
  rewrite (proj2 (Nat.leb_gt n 13)), (proj2 (Nat.eqb_neq n 32)) by lia.
  by rewrite !andb_false_r.
Qed.

Lemma digit_not_char a d c :
  PyInt.digit_of a = Some d → PyInt.digit_of c = None → Ascii.eqb a c = false.
Proof.
  intros Ha Hc. destruct (Ascii.eqb_spec a c) as [->|]; [congruence|done].
Qed.

(** One more digit at the end: ten times the value, plus the digit. *)
Lemma digits_snoc l : ∀ acc b v c d,
  PyInt.digit_of c = Some d →
  PyInt.digits acc b l = Some v →
  PyInt.digits acc b (l ++ [c]) = Some (10 * v + d)%Z.
Proof.
  induction l as [|a l IH]; intros acc b v c d Hc; simpl.
  - destruct b; [|done]. intros [= <-].
    by rewrite (digit_not_char c d "_"), Hc.
  - destruct (Ascii.eqb a "_").
    + destruct b; [|done]. by apply IH.
    + destruct (PyInt.digit_of a); [|done]. by apply IH.
Qed.

Lemma strip_digits l : all_digits l → PyInt.strip l = l.
Proof.
  intros Hl. unfold PyInt.strip.
  assert (∀ l', all_digits l' → PyInt.lstrip l' = l') as Hls.
  { intros [|a l'] Hl'; [done|]. simpl.
    apply Forall_cons in Hl' as [[d Hd] _]. by rewrite (digit_not_space a d). }
  rewrite (Hls l Hl), Hls; [apply rev_involutive|]. by apply Forall_rev.
Qed.

(** Every natural number has a decimal numeral. *)
Lemma digits_exist (n : nat) :
  ∃ l, all_digits l ∧ PyInt.digits 0 false l = Some (Z.of_nat n).
Proof.
  induction (lt_wf n) as [n _ IH].
  destruct (decide (n < 10)) as [Hlt|Hge].
  - exists [ascii_of_nat (48 + n)].
    do 10 (destruct n as [|n];
           [split; [repeat constructor; by eexists|reflexivity]|]).
    lia.
  - destruct (IH (n / 10)) as (l & Hl & Hv).
    { apply Nat.div_lt; lia. }
    pose proof (Nat.mod_upper_bound n 10 ltac:(lia)) as Hr.
    pose proof (Nat.div_mod_eq n 10) as Hn.
    exists (l ++ [ascii_of_nat (48 + n mod 10)]).
    assert (PyInt.digit_of (ascii_of_nat (48 + n mod 10))
            = Some (Z.of_nat (n mod 10))) as Hd.
    { revert Hr. generalize (n mod 10). intros r Hr.
      do 10 (destruct r as [|r]; [reflexivity|]). lia. }
    split.
    + apply Forall_app. split; [done|]. repeat constructor. by eexists.
    + rewrite (digits_snoc l _ _ _ _ _ Hd Hv). f_equal. lia.
Qed.

Lemma page_number_string (n : nat) : ∃ s, PyInt.int s = Some (Z.of_nat n).
Proof.
  destruct (digits_exist n) as (l & Hl & Hv).
  exists (string_of_list_ascii l). unfold PyInt.int.
  rewrite list_ascii_of_string_of_list_ascii, strip_digits by done.
  destruct l as [|a l]; [done|].
  apply Forall_cons in Hl as [[d Hd] _].
  by rewrite (digit_not_char a d "-"), (digit_not_char a d "+").
Qed.

(** Every item of the list is on the page some query string asks for. *)
Lemma elem_on_requested_page {A} (p : Paginator A) x :
  0 < per_page p → x ∈ object_list p →
  ∃ s, x ∈ page_object_list (get_page p (Some s)).
Proof.
  intros Hper Hx. destruct (elem_on_some_page p x Hper Hx) as (n & Hn & Hin).
  destruct (page_number_string n) as [s Hs].
  exists s. by rewrite (get_page_valid p s n).
Qed.

End PageNumbers.

(** ** What an author sees, and how listings are cut into pages *)

Section AuthorsAndPages.
Implicit Types (db : Store) (a : AnnotatedPost) (request : HttpRequest).

Lemma get_user_by_name db me u :
  username_unique db → users db !! me = Some u →
  get_object_or_404 (objects (users db)) (λ o, username o.2 = username u)
  = Found (me, u).
Proof.
  intros Huniq Hu. apply get_object_one.
  - apply NoDup_objects.
  - by apply elem_of_objects.
  - done.
  - intros [k v] Hin Hname. apply elem_of_objects in Hin. simpl in Hname.
    assert (k = me) as -> by (eapply Huniq; eauto). congruence.
Qed.

(** C2: a logged-in author gets the post from [post_detail]; [profile]
    under the author's own name has the post in its listing, shows it on
    the page asked for when the listing fits on one page, and shows it on
    the page some query string asks for otherwise, whatever the post's
    flag, its category's flag and its publication date are.  The author is
    a stored user and the name column is unique. *)
Theorem author_finds_own_post request now db me u id p author :
  request_user request = AuthenticatedUser me u →
  posts db !! id = Some p → post_author p = me →
  users db !! me = Some author → username_unique db →
  (∃ context,
     post_detail request id now db = render "blog/detail.html" context
     ∧ ctx_post context = Some (id, p))
  ∧ (∃ a,
       ap_pk a = id ∧ ap_post a = p
       ∧ a ∈ listing (profile request (username author) now db)
       ∧ (length (listing (profile request (username author) now db)) ≤ 10 →
          a ∈ shown (profile request (username author) now db))
       ∧ ∃ q, a ∈ shown (profile (with_GET [("page", q)] request)
                           (username author) now db)).
Proof.
  intros Hme Hp Hauthor Hrow Huniq. split.
  - unfold post_detail. rewrite Hme, get_pk_filter, Hp.
    rewrite decide_True by (by right). by eexists.
  - set (a := {| ap_pk := id; ap_post := p; comment_count := comments_of db id |}).
    unfold profile, listing, shown, with_GET. simpl.
    rewrite (get_user_by_name db me author) by done.
    rewrite Hme. simpl. rewrite bool_decide_eq_true_2 by done.
    set (post_list := order_by_desc by_pub_date _).
    assert (a ∈ post_list) as Hin by (by apply elem_of_post_list).
    exists a. split; [done|]. split; [done|].
    unfold paginate. rewrite paginator_get_page. simpl.
    split; [done|]. split.
    + intros Hfit. by rewrite single_page by (simpl; unfold count; simpl; lia).
    + change (QueryDict_get "page" [("page", ?q)]) with (Some q).
      apply (elem_on_requested_page {| object_list := post_list; per_page := 10 |});
        simpl; [lia|done].
Qed.




End AuthorsAndPages.

(** ** Views that write *)

Section Writes.
Context `{F : Forms}.
Implicit Types (db : Store) (request : HttpRequest).

Lemma is_valid_bind cls db instance data :
  is_valid (bind cls db instance data)
  = bool_decide (form_validate cls db instance data = []).
Proof. reflexivity. Qed.

Lemma get_post_comment_lookup db post_id comment_id :
  get_post_comment post_id comment_id db =
    match posts db !! post_id, comments db !! comment_id with
    | Some p, Some c =>
        if decide (comment_post c = post_id)
        then Found ((post_id, p), (comment_id, c)) else Raise404
    | _, _ => Raise404
    end.
Proof.
  unfold get_post_comment. rewrite get_pk.
  destruct (posts db !! post_id) as [p|]; [|done].
  rewrite (get_pk_and (comments db) (λ c, comment_post c.2 = post_id)).
  destruct (comments db !! comment_id) as [c|]; [|done].
  simpl. by destruct (decide (comment_post c = post_id)).
Qed.

Lemma next_pk_fresh {A} (t : gmap N A) : t !! next_pk t = None.
Proof. apply not_elem_of_dom, is_fresh. Qed.

Lemma comments_of_insert db k c post_id :
  comments db !! k = None → comment_post c = post_id →
  comments_of (set_comments (insert k c) db) post_id
  = S (comments_of db post_id).
Proof.
  intros Hk Hc. unfold comments_of, post_comments, objects. simpl.
  rewrite map_to_list_insert by done. by rewrite filter_cons_True.
Qed.

(** C3: when a logged-in user who is not the author asks to update or
    delete a post, or to edit or delete a comment of a post, the store
    is returned as it was and the answer is a redirect to the detail page
    of the post. *)
Theorem non_author_is_redirected request now db me u :
  request_user request = AuthenticatedUser me u →
  (∀ post_id p,
     posts db !! post_id = Some p → post_author p ≠ me →
     PostUpdateView request post_id now db
       = (redirect (url_post_detail post_id), db)
     ∧ PostDeleteView request post_id now db
       = (redirect (url_post_detail post_id), db))
  ∧ (∀ post_id comment_id p c,
       posts db !! post_id = Some p → comments db !! comment_id = Some c →
       comment_post c = post_id → comment_author c ≠ me →
       edit_comment request post_id comment_id now db
         = (redirect (url_post_detail post_id), db)
       ∧ delete_comment request post_id comment_id now db
         = (redirect (url_post_detail post_id), db)).
Proof.
  intros Hme. split.
  - intros post_id p Hp Hother.
    unfold PostUpdateView, PostDeleteView, get_object.
    rewrite get_pk, Hp, Hme. simpl.
    by rewrite bool_decide_eq_false_2 by congruence.
  - intros post_id comment_id p c Hp Hc Hpost Hother.
    unfold edit_comment, delete_comment, login_required.
    rewrite get_post_comment_lookup, Hp, Hc, Hme. simpl.
    rewrite decide_True by done. simpl.
    by rewrite bool_decide_eq_false_2 by congruence.
Qed.

(** The views behind [login_required] and [PostCreateView] send an
    anonymous visitor to the login page and leave the store alone. *)
Lemma anonymous_is_sent_to_login request now db :
  request_user request = AnonymousUser →
  let login := (redirect (url_login_next (request_path request)), db) in
  PostCreateView request now db = login
  ∧ edit_profile request now db = login
  ∧ (∀ post_id, add_comment request post_id now db = login)
  ∧ (∀ post_id comment_id,
       edit_comment request post_id comment_id now db = login
       ∧ delete_comment request post_id comment_id now db = login).
Proof.
  intros Hanon. simpl.
  unfold PostCreateView, LoginRequiredMixin_dispatch, edit_profile, add_comment,
    edit_comment, delete_comment, login_required.
  by rewrite Hanon.
Qed.

(** C4 at the post update and delete views: an anonymous request for a
    stored post is answered with a redirect to the post's detail page,
    which is not the login page; for a post that is not stored the answer
    is not-found. *)
Theorem anonymous_post_edit_skips_login request now db post_id :
  request_user request = AnonymousUser →
  (∀ p, posts db !! post_id = Some p →
        PostUpdateView request post_id now db
          = (redirect (url_post_detail post_id), db)
        ∧ PostDeleteView request post_id now db
          = (redirect (url_post_detail post_id), db)
        ∧ is_login_page (url_post_detail post_id) = false)
  ∧ (posts db !! post_id = None →
     PostUpdateView request post_id now db = (Http404, db)
     ∧ PostDeleteView request post_id now db = (Http404, db)).
Proof.
  intros Hanon. unfold PostUpdateView, PostDeleteView, get_object.
  rewrite get_pk, Hanon. split.
  - by intros p ->.
  - by intros ->.
Qed.

(** C10: for a logged-in user, [edit_comment] and [delete_comment]
    answer not-found and return the store as it was when the post is not
    stored, when the comment is not stored, or when the comment refers to
    another post. *)
Theorem comment_of_other_post_not_found request now db post_id comment_id :
  is_authenticated (request_user request) = true →
  posts db !! post_id = None
  ∨ comments db !! comment_id = None
  ∨ (∃ c, comments db !! comment_id = Some c ∧ comment_post c ≠ post_id) →
  edit_comment request post_id comment_id now db = (Http404, db)
  ∧ delete_comment request post_id comment_id now db = (Http404, db).
Proof.
  intros Hauth Hcase.
  unfold edit_comment, delete_comment, login_required.
  rewrite Hauth, get_post_comment_lookup.
  destruct Hcase as [->|[->|(c & -> & Hother)]].
  - done.
  - by destruct (posts db !! post_id).
  - destruct (posts db !! post_id); [|done]. by rewrite decide_False.
Qed.

Lemma bound_form_rerendered template context cls db instance data :
  ctx_form context = Some (bind cls db instance data) →
  form_validate cls db instance data ≠ [] →
  rerenders_with_errors (render template context) template data.
Proof. intros Hform Herr. by exists context, (bind cls db instance data). Qed.

(** C5 (amended): a POST with data the form rejects leaves the store as
    it was in all four views; [registration], [edit_profile] (logged in)
    and [edit_comment] (by the comment's author) render their template
    again with the bound form and its errors, and [add_comment] (logged
    in, stored post) redirects to the post's detail page. *)
Theorem invalid_form_data request now db :
  request_method request = POST →
  let data := request_POST request in
  (form_validate UserCreationForm db None data ≠ [] →
     rerenders_with_errors (registration request now db).1
       "registration/registration_form.html" data
     ∧ (registration request now db).2 = db)
  ∧ (∀ me u,
       request_user request = AuthenticatedUser me u →
       form_validate UserEditForm db (Some me) data ≠ [] →
       rerenders_with_errors (edit_profile request now db).1 "blog/user.html" data
       ∧ (edit_profile request now db).2 = db)
  ∧ (∀ me u post_id comment_id p c,
       request_user request = AuthenticatedUser me u →
       posts db !! post_id = Some p → comments db !! comment_id = Some c →
       comment_post c = post_id → comment_author c = me →
       form_validate CommentForm db (Some comment_id) data ≠ [] →
       rerenders_with_errors (edit_comment request post_id comment_id now db).1
         "blog/comment.html" data
       ∧ (edit_comment request post_id comment_id now db).2 = db)
  ∧ (∀ me u post_id p,
       request_user request = AuthenticatedUser me u →
       posts db !! post_id = Some p →
       form_validate CommentForm db None data ≠ [] →
       add_comment request post_id now db
       = (redirect (url_post_detail post_id), db)).
Proof.
  intros Hpost data. subst data. repeat apply conj.
  - intros Herr. unfold registration.
    rewrite decide_True by done. rewrite is_valid_bind.
    rewrite bool_decide_eq_false_2 by done. simpl.
    split; [|done]. by eapply bound_form_rerendered.
  - intros me u Hme Herr. unfold edit_profile, login_required.
    rewrite Hme. simpl. rewrite decide_True by done. rewrite is_valid_bind.
    rewrite bool_decide_eq_false_2 by done. simpl.
    split; [|done]. by eapply bound_form_rerendered.
  - intros me u post_id comment_id p c Hme Hp Hc Hcp Hauthor Herr.
    unfold edit_comment, login_required.
    rewrite get_post_comment_lookup, Hp, Hc, Hme. simpl.
    rewrite decide_True by done. simpl.
    rewrite bool_decide_eq_true_2 by done. simpl.
    rewrite decide_True by done. rewrite is_valid_bind.
    rewrite bool_decide_eq_false_2 by done. simpl.
    split; [|done]. by eapply bound_form_rerendered.
  - intros me u post_id p Hme Hp Herr.
    unfold add_comment, login_required, require_http_methods.
    rewrite Hme. simpl. rewrite decide_True by (rewrite Hpost; left).
    rewrite get_pk, Hp, is_valid_bind.
    by rewrite bool_decide_eq_false_2 by done.
Qed.

(** C6 (amended): a GET to [add_comment] never changes the store, and
    from a logged-in user it is answered with method-not-allowed; a POST
    from a logged-in user with data the form accepts, for a stored post,
    adds one comment under a key that was free, referring to that post
    and written by that user, changes no other row, raises the number of
    comments of the post by one and redirects to the post's detail
    page. *)
Theorem add_comment_get_and_post request post_id now db :
  (request_method request = GET →
     (add_comment request post_id now db).2 = db
     ∧ (is_authenticated (request_user request) = true →
        (add_comment request post_id now db).1 = HttpResponseNotAllowed [POST]))
  ∧ (∀ me u p,
       request_method request = POST →
       request_user request = AuthenticatedUser me u →
       posts db !! post_id = Some p →
       form_validate CommentForm db None (request_POST request) = [] →
       ∃ k c,
         comments db !! k = None
         ∧ comment_post c = post_id ∧ comment_author c = me
         ∧ add_comment request post_id now db
           = (redirect (url_post_detail post_id), set_comments (insert k c) db)
         ∧ comments_of (add_comment request post_id now db).2 post_id
           = S (comments_of db post_id)).
Proof.
  split.
  - intros Hget. unfold add_comment, login_required, require_http_methods.
    destruct (is_authenticated (request_user request)); [|done].
    rewrite decide_False; [done|].
    rewrite Hget. by intros [=]%list_elem_of_singleton.
  - intros me u p Hpost Hme Hp Hok.
    unfold add_comment, login_required, require_http_methods.
    rewrite Hme. simpl. rewrite decide_True by (rewrite Hpost; left).
    rewrite get_pk, Hp, is_valid_bind, bool_decide_eq_true_2 by done. simpl.
    eexists _, _. split; [apply next_pk_fresh|].
    split; [|split; [|split; [reflexivity|]]]; [done..|].
    simpl. apply comments_of_insert; [apply next_pk_fresh|done].
Qed.

End Writes.

(** ** The statements on the sample data *)

Lemma sample_username_unique : username_unique Sample.db.
Proof.
  intros i j u v Hi Hj Hname. unfold Sample.db in *. simpl in *.
  apply lookup_insert_Some in Hi as [[<- <-]|[? Hi]];
    [|apply lookup_insert_Some in Hi as [[<- <-]|[? Hi]]; [|done]];
    (apply lookup_insert_Some in Hj as [[<- <-]|[? Hj]];
     [|apply lookup_insert_Some in Hj as [[<- <-]|[? Hj]]; [|done]]);
    done.
Qed.

Lemma sample_slug_unique : slug_unique Sample.db.
Proof.
  intros i j u v Hi Hj Hname. unfold Sample.db in *. simpl in *.
  apply lookup_insert_Some in Hi as [[<- <-]|[? Hi]];
    [|apply lookup_insert_Some in Hi as [[<- <-]|[? Hi]]; [|done]];
    (apply lookup_insert_Some in Hj as [[<- <-]|[? Hj]];
     [|apply lookup_insert_Some in Hj as [[<- <-]|[? Hj]]; [|done]]);
    done.
Qed.

Lemma listed_posts_are_public_witness :
  let request := Sample.request GET AnonymousUser [] [] in
  let a := {| ap_pk := 1; ap_post := Sample.post1; comment_count := 1 |} in
  a ∈ shown (index request Sample.now Sample.db)
  ∧ a ∈ shown (category_posts request "travel" Sample.now Sample.db)
  ∧ a ∈ shown (profile request "alice" Sample.now Sample.db)
  ∧ publicly_visible Sample.db Sample.now Sample.post1.
Proof.
  intros request a.
  assert (a ∈ shown (index request Sample.now Sample.db)) as Hi
    by (vm_compute; left).
  assert (a ∈ shown (category_posts request "travel" Sample.now Sample.db)) as Hc
    by (vm_compute; left).
  assert (a ∈ shown (profile request "alice" Sample.now Sample.db)) as Hp
    by (vm_compute; left).
  destruct (listed_posts_are_public request Sample.now Sample.db a)
    as (Hindex & Hcategory & Hprofile).
  split; [done|]. split; [done|]. split; [done|].
  pose proof (Hcategory "travel" (or_introl Hc)) as [_ Hvis1].
  pose proof (Hprofile "alice" (λ _ _ _ _, eq_refl) (or_introl Hp)) as [_ Hvis2].
  exact (proj2 (Hindex (or_introl Hi))).
Defined.

Lemma author_finds_own_post_witness :
  let request := Sample.request GET Sample.as_alice [] [] in
  (∃ context,
     post_detail request 2 Sample.now Sample.db = render "blog/detail.html" context
     ∧ ctx_post context = Some (2%N, Sample.post2))
  ∧ ∃ a, ap_pk a = 2%N ∧ ap_post a = Sample.post2
         ∧ a ∈ shown (profile request "alice" Sample.now Sample.db).
Proof.
  intros request.
  destruct (author_finds_own_post request Sample.now Sample.db 1 Sample.alice 2
              Sample.post2 Sample.alice eq_refl eq_refl eq_refl eq_refl
              sample_username_unique)
    as [Hdetail (a & Hpk & Hpost & _ & Hshown & _)].
  split; [exact Hdetail|]. exists a. split; [done|]. split; [done|].
  apply Hshown. vm_compute. lia.
Defined.

Lemma non_author_is_redirected_witness :
  PostDeleteView (Sample.request POST Sample.as_bob [] []) 1 Sample.now Sample.db
  = (redirect (url_post_detail 1), Sample.db)
  ∧ edit_comment (F := Sample.forms)
      (Sample.request POST Sample.as_alice [] [("text", "edited")])
      1 1 Sample.now Sample.db
    = (redirect (url_post_detail 1), Sample.db).
Proof.
  split.
  - destruct (non_author_is_redirected (F := Sample.forms)
                (Sample.request POST Sample.as_bob [] []) Sample.now Sample.db
                2 Sample.bob eq_refl) as [Hposts _].
    refine (proj2 (Hposts 1%N Sample.post1 eq_refl _)).
    vm_compute. discriminate.
  - destruct (non_author_is_redirected (F := Sample.forms)
                (Sample.request POST Sample.as_alice [] [("text", "edited")])
                Sample.now Sample.db 1 Sample.alice eq_refl) as [_ Hcomments].
    refine (proj1 (Hcomments 1%N 1%N Sample.post1 Sample.comment1
                     eq_refl eq_refl eq_refl _)).
    vm_compute. discriminate.
Defined.

Lemma anonymous_post_edit_skips_login_witness :
  let request := Sample.request GET AnonymousUser [] [] in
  PostUpdateView (F := Sample.forms) request 1 Sample.now Sample.db
  = (redirect (url_post_detail 1), Sample.db)
  ∧ PostDeleteView request 1 Sample.now Sample.db
    = (redirect (url_post_detail 1), Sample.db)
  ∧ is_login_page (url_post_detail 1) = false.
Proof.
  intros request.
  destruct (anonymous_post_edit_skips_login (F := Sample.forms) request
              Sample.now Sample.db 1 eq_refl) as [Hstored _].
  exact (Hstored Sample.post1 eq_refl).
Defined.

Lemma invalid_form_data_witness :
  let request := Sample.request POST Sample.as_bob [] [] in
  rerenders_with_errors
    (registration (F := Sample.forms) request Sample.now Sample.db).1
    "registration/registration_form.html" []
  ∧ rerenders_with_errors
      (edit_profile (F := Sample.forms) request Sample.now Sample.db).1
      "blog/user.html" []
  ∧ rerenders_with_errors
      (edit_comment (F := Sample.forms) request 1 1 Sample.now Sample.db).1
      "blog/comment.html" []
  ∧ add_comment (F := Sample.forms) request 1 Sample.now Sample.db
    = (redirect (url_post_detail 1), Sample.db).
Proof.
  intros request.
  destruct (invalid_form_data (F := Sample.forms) request Sample.now Sample.db
              eq_refl) as (Hreg & Hprofile & Hedit & Hadd).
  split; [apply Hreg; vm_compute; discriminate|].
  split; [apply (Hprofile 2%N Sample.bob eq_refl); vm_compute; discriminate|].
  split.
  - apply (Hedit 2%N Sample.bob 1%N 1%N Sample.post1 Sample.comment1);
      try reflexivity. vm_compute. discriminate.
  - apply (Hadd 2%N Sample.bob 1%N Sample.post1); try reflexivity.
    vm_compute. discriminate.
Defined.

Lemma add_comment_get_and_post_witness :
  (add_comment (F := Sample.forms) (Sample.request GET Sample.as_bob [] [])
     1 Sample.now Sample.db).1 = HttpResponseNotAllowed [POST]
  ∧ comments_of
      (add_comment (F := Sample.forms)
         (Sample.request POST Sample.as_bob [] [("text", "hello")])
         1 Sample.now Sample.db).2 1
    = S (comments_of Sample.db 1).
Proof.
  split.
  - destruct (add_comment_get_and_post (F := Sample.forms)
                (Sample.request GET Sample.as_bob [] []) 1 Sample.now Sample.db)
      as [Hget _].
    exact (proj2 (Hget eq_refl) eq_refl).
  - destruct (add_comment_get_and_post (F := Sample.forms)
                (Sample.request POST Sample.as_bob [] [("text", "hello")])
                1 Sample.now Sample.db) as [_ Hpost].
    destruct (Hpost 2%N Sample.bob Sample.post1 eq_refl eq_refl eq_refl eq_refl)
      as (k & c & _ & _ & _ & _ & Hcount).
    exact Hcount.
Defined.


Lemma category_posts_not_found_witness :
  category_posts (Sample.request GET AnonymousUser [] []) "news"
    Sample.now Sample.db = Http404.
Proof.
  apply category_posts_not_found; [exact sample_slug_unique|].
  right. exists 1%N, Sample.news. by vm_compute.
Defined.

Lemma post_detail_comments_witness :
  ∃ context,
    post_detail (Sample.request GET AnonymousUser [] []) 1 Sample.now Sample.db
    = render "blog/detail.html" context
    ∧ ctx_comments context = Some [(1%N, Sample.comment1)].
Proof.
  destruct (post_detail_comments (Sample.request GET AnonymousUser [] []) 1
              Sample.now Sample.db) as [Hall Hshown].
  destruct (Hshown Sample.post1 eq_refl) as [context Hrender].
  - split; [reflexivity|]. split; [|vm_compute; discriminate].
    by exists 2%N, Sample.travel.
  - exists context. split; [exact Hrender|].
    destruct (Hall _ _ Hrender) as (p & cs & _ & _ & Hcs & _).
    vm_compute in Hrender. injection Hrender as <-. reflexivity.
Defined.

Lemma comment_of_other_post_not_found_witness :
  edit_comment (F := Sample.forms)
    (Sample.request POST Sample.as_bob [] [("text", "moved")]) 2 1
    Sample.now Sample.db = (Http404, Sample.db).
Proof.
  apply (comment_of_other_post_not_found (F := Sample.forms)); [reflexivity|].
  right. right. exists Sample.comment1. split; [reflexivity|].
  vm_compute. discriminate.
Defined.

(** *** Inputs on which the views differ from the wording of the specification *)

(** [add_comment] answers rejected data with a redirect, not with the form. *)
Lemma add_comment_invalid_redirects :
  let request := Sample.request POST Sample.as_bob [] [] in
  let r := (add_comment (F := Sample.forms) request 1 Sample.now Sample.db).1 in
  form_validate (Forms := Sample.forms) CommentForm Sample.db None
    (request_POST request) ≠ []
  ∧ r = redirect (url_post_detail 1)
  ∧ ¬ ∃ template, rerenders_with_errors r template (request_POST request).
Proof.
  intros request r. split; [vm_compute; discriminate|]. split; [reflexivity|].
  intros (template & context & form & Hr & _). vm_compute in Hr. discriminate.
Qed.

(** An anonymous GET to [add_comment] is sent to the login page. *)
Lemma add_comment_anonymous_get :
  let request := Sample.request GET AnonymousUser [] [] in
  request_method request = GET
  ∧ add_comment (F := Sample.forms) request 1 Sample.now Sample.db
    = (redirect (url_login_next "/"), Sample.db)
  ∧ (add_comment (F := Sample.forms) request 1 Sample.now Sample.db).1
    ≠ HttpResponseNotAllowed [POST].
Proof. repeat split. vm_compute. discriminate. Qed.


(** ** What the listings contain and how they are ordered *)

Section ListingContents.
Implicit Types (db : Store) (a : AnnotatedPost) (request : HttpRequest).

#[local] Instance desc_total {A} (key : A → Z) : Total (desc key).
Proof. intros x y. unfold desc. lia. Qed.

#[local] Instance desc_transitive {A} (key : A → Z) : Transitive (desc key).
Proof. intros x y z. unfold desc. lia. Qed.

Lemma annotate_NoDup db qs : NoDup qs → NoDup (annotate db qs).
Proof.
  intros Hnd. unfold annotate. apply NoDup_fmap_2_strong; [|done].
  intros [k p] [k' p'] _ _ [= -> ->]. done.
Qed.

Lemma post_list_NoDup db (P : N * Post → Prop) `{∀ o, Decision (P o)} :
  NoDup (order_by_desc by_pub_date (annotate db (filter P (objects (posts db))))).
Proof.
  unfold order_by_desc. rewrite merge_sort_Permutation.
  apply annotate_NoDup, NoDup_filter, NoDup_objects.
Qed.

Lemma StronglySorted_newest_first l :
  StronglySorted (desc by_pub_date) l → newest_first l.
Proof.
  induction 1 as [|x l Hl IH Hx]; intros i j a b Hij Hi Hj.
  - by rewrite lookup_nil in Hi.
  - destruct i as [|i], j as [|j]; simpl in *; try lia.
    + injection Hi as <-. injection Hj as <-. lia.
    + injection Hi as <-. apply list_elem_of_lookup_2 in Hj.
      rewrite Forall_forall in Hx. apply (Hx b Hj).
    + apply (IH i j); [lia|done..].
Qed.

Lemma post_list_newest_first (l : list AnnotatedPost) :
  newest_first (order_by_desc by_pub_date l).
Proof. apply StronglySorted_newest_first, StronglySorted_merge_sort; apply _. Qed.

Lemma slice_newest_first l bottom top :
  newest_first l → newest_first (slice l bottom top).
Proof.
  intros Hl i j a b Hij Hi Hj. unfold slice in *.
  apply lookup_take_Some in Hi as [Hi _]. apply lookup_take_Some in Hj as [Hj _].
  rewrite lookup_drop in Hi, Hj. apply (Hl (bottom + i) (bottom + j)); [lia|done..].
Qed.

Lemma get_page_newest_first (p : Paginator AnnotatedPost) q :
  newest_first (object_list p) → newest_first (page_object_list (get_page p q)).
Proof.
  intros Hl. unfold get_page.
  destruct (validate_number p q); simpl; by apply slice_newest_first.
Qed.

(** Every listing view either renders no page, or a page of a list that
    [order_by] has sorted. *)
Lemma listing_view_sorted request now db r :
  listing_view request now db r →
  page_of r = None
  ∨ ∃ l, page_of r = Some (paginate (order_by_desc by_pub_date l) request).
Proof.
  intros [->|[[slug ->]|[name ->]]].
  - right. by eexists.
  - unfold category_posts. destruct (get_object_or_404 _ _); simpl; eauto.
  - unfold profile. destruct (get_object_or_404 _ _) as [author| |]; simpl; eauto.
    destruct (user_eq _ _); eauto.
Qed.


(** X1: the listing of [index] holds each stored post that is published,
    in a published category and not dated ahead, once, with the number of
    its comments, and nothing else. *)
Theorem index_lists_public_posts request now db :
  NoDup (listing (index request now db))
  ∧ ∀ a, a ∈ listing (index request now db) ↔
           posts db !! ap_pk a = Some (ap_post a)
           ∧ publicly_visible db now (ap_post a)
           ∧ comment_count a = comments_of db (ap_pk a).
Proof.
  unfold index, listing, paginate. simpl. rewrite paginator_get_page. simpl.
  split; [apply post_list_NoDup|].
  intros a. rewrite elem_of_post_list. split.
  - intros (Hpub & Hrow & Hcount). eauto using published_visible.
  - intros (Hrow & Hvis & Hcount). eauto using visible_published.
Qed.

(** X2: the listing and the page of [index], [category_posts] and
    [profile] are ordered by publication date, latest first. *)
Theorem listings_newest_first request now db r :
  listing_view request now db r →
  newest_first (listing r) ∧ newest_first (shown r).
Proof.
  intros Hview. unfold listing, shown.
  destruct (listing_view_sorted request now db r Hview) as [->|[l ->]]; simpl.
  { split; intros i j a b _ Hi; by rewrite lookup_nil in Hi. }
  unfold paginate. rewrite paginator_get_page. simpl. split.
  - apply post_list_newest_first.
  - apply get_page_newest_first. simpl. apply post_list_newest_first.
Qed.

(** X3: [post_detail] answers not-found for an identifier no post has, and
    for a post that is not publicly visible when the requester is not its
    author. *)
Theorem post_detail_hides_post request id now db :
  (posts db !! id = None → post_detail request id now db = Http404)
  ∧ (∀ p, posts db !! id = Some p → ¬ publicly_visible db now p →
          user_eq (request_user request) (post_author p) = false →
          post_detail request id now db = Http404).
Proof.
  unfold post_detail. split.
  - intros Hnone. by destruct (request_user request); rewrite get_pk_filter, Hnone.
  - intros p Hp Hhidden Hother.
    destruct (request_user request) as [|me u]; rewrite get_pk_filter, Hp.
    + rewrite decide_False; [done|]. eauto using published_visible.
    + rewrite decide_False; [done|]. intros [Hpub|Hauthor].
      * eauto using published_visible.
      * simpl in *. by rewrite bool_decide_eq_true_2 in Hother.
Qed.

(** X4: for the slug of a published category, [category_posts] renders
    that category, and its listing holds exactly the stored posts of the
    category that are published and not dated ahead, each once.  The slug
    column is unique. *)
Theorem category_posts_lists_category request slug now db k cat :
  slug_unique db → categories db !! k = Some cat →
  category_slug cat = slug → category_is_published cat = true →
  ∃ context,
    category_posts request slug now db = render "blog/category.html" context
    ∧ ctx_category context = Some (k, cat)
    ∧ NoDup (listing (category_posts request slug now db))
    ∧ ∀ a, a ∈ listing (category_posts request slug now db) ↔
             posts db !! ap_pk a = Some (ap_post a)
             ∧ post_category (ap_post a) = Some k
             ∧ post_is_published (ap_post a) = true
             ∧ (post_pub_date (ap_post a) ≤ now)%Z
             ∧ comment_count a = comments_of db (ap_pk a).
Proof.
  intros Huniq Hcat Hslug Hflag. unfold category_posts, listing.
  rewrite (get_object_one _ _ (k, cat)); cycle 1.
  { apply NoDup_filter, NoDup_objects. }
  { apply list_elem_of_filter. split; [done|]. by apply elem_of_objects. }
  { done. }
  { intros [k' cat'] [_ Hin]%list_elem_of_filter Hs. apply elem_of_objects in Hin.
    simpl in Hs. assert (k' = k) as -> by (eapply Huniq; eauto; congruence).
    congruence. }
  simpl. eexists. split; [done|]. split; [done|].
  unfold paginate. rewrite paginator_get_page. simpl.
  split; [apply post_list_NoDup|].
  intros a. rewrite elem_of_post_list. simpl. tauto.
Qed.

(** X5: [profile] answers not-found for a name no user has; for a stored
    user it renders that user, and the listing holds exactly the user's
    stored posts, each once: all of them when the requester is that user,
    the publicly visible ones otherwise.  The name column is unique. *)
Theorem profile_lists_author_posts request name now db :
  ((∀ k u, users db !! k = Some u → username u ≠ name) →
     profile request name now db = Http404)
  ∧ (∀ k u,
       username_unique db → users db !! k = Some u → username u = name →
       ∃ context,
         profile request name now db = render "blog/profile.html" context
         ∧ ctx_profile context = Some (k, u)
         ∧ NoDup (listing (profile request name now db))
         ∧ ∀ a, a ∈ listing (profile request name now db) ↔
                  posts db !! ap_pk a = Some (ap_post a)
                  ∧ post_author (ap_post a) = k
                  ∧ (user_eq (request_user request) k = true
                     ∨ publicly_visible db now (ap_post a))
                  ∧ comment_count a = comments_of db (ap_pk a)).
Proof.
  split.
  - intros Hnone. unfold profile. rewrite get_object_none; [done|].
    intros [k u] Hin%elem_of_objects Hname. by apply (Hnone k u).
  - intros k u Huniq Hu <-. unfold profile, listing.
    rewrite (get_user_by_name db k u) by done. simpl.
    eexists. split; [done|]. split; [done|].
    unfold paginate. rewrite paginator_get_page. simpl.
    destruct (user_eq (request_user request) k) eqn:Hme.
    + split; [apply post_list_NoDup|].
      intros a. rewrite elem_of_post_list. simpl. tauto.
    + split; [apply post_list_NoDup|].
      intros a. rewrite elem_of_post_list. simpl. split.
      * intros ((Hauthor & Hpub) & Hrow & Hcount).
        eauto 6 using published_visible.
      * intros (Hrow & Hauthor & [?|Hvis] & Hcount); [done|].
        eauto using visible_published.
Qed.


End ListingContents.

(** ** What the writing views write *)

Section WritesOfAuthors.
Context `{F : Forms}.
Implicit Types (db : Store) (request : HttpRequest).

Lemma same_rows_but_insert {A} (t : gmap N A) k x :
  same_rows_but k t (<[k := x]> t).
Proof. intros j Hj. by rewrite lookup_insert_ne. Qed.

Lemma same_rows_but_delete {A} (t : gmap N A) k :
  same_rows_but k t (delete k t).
Proof. intros j Hj. by rewrite lookup_delete_ne. Qed.

(** X7: a POST to [registration] with data the form accepts stores one
    new user under a key that was free, so no stored user is replaced, and
    redirects to the login route; any other method renders the blank form
    and leaves the store as it was.  The requester need not be
    anonymous. *)
Theorem registration_adds_user request now db :
  (request_method request = POST →
   form_validate UserCreationForm db None (request_POST request) = [] →
   ∃ k, users db !! k = None
        ∧ registration request now db
          = (redirect url_login,
             set_users (insert k (UserCreationForm_new (request_POST request))) db)
        ∧ size (users (registration request now db).2) = S (size (users db))
        ∧ same_rows_but k (users db) (users (registration request now db).2))
  ∧ (request_method request ≠ POST →
     registration request now db
     = (render "registration/registration_form.html"
          (with_form (unbound UserCreationForm None) ctx_empty), db)).
Proof.
  unfold registration. split.
  - intros Hpost Hok. rewrite decide_True by done.
    rewrite is_valid_bind, bool_decide_eq_true_2 by done.
    exists (next_pk (users db)). pose proof (next_pk_fresh (users db)) as Hfresh.
    split; [done|]. split; [done|]. simpl. split.
    + by apply map_size_insert_None.
    + apply same_rows_but_insert.
  - intros Hother. by rewrite decide_False.
Qed.

(** X8: a POST to [edit_profile] from a logged-in user with data the form
    accepts writes the updated instance under the user's own key, leaves
    every other user and the three other tables as they were, and
    redirects to the profile under the updated name; any other method
    renders the form for the user's instance and writes nothing. *)
Theorem edit_profile_writes_own_row request now db me u :
  request_user request = AuthenticatedUser me u →
  (request_method request = POST →
   form_validate UserEditForm db (Some me) (request_POST request) = [] →
   let u' := UserEditForm_update (request_POST request) u in
   let db' := (edit_profile request now db).2 in
   (edit_profile request now db).1 = redirect (url_profile (username u'))
   ∧ users db' !! me = Some u'
   ∧ same_rows_but me (users db) (users db')
   ∧ categories db' = categories db ∧ posts db' = posts db
   ∧ comments db' = comments db)
  ∧ (request_method request ≠ POST →
     edit_profile request now db
     = (render "blog/user.html"
          (with_form (unbound UserEditForm (Some me)) ctx_empty), db)).
Proof.
  intros Hme. unfold edit_profile, login_required. rewrite Hme. simpl. split.
  - intros Hpost Hok. rewrite decide_True by done.
    rewrite is_valid_bind, bool_decide_eq_true_2 by done. simpl.
    split; [done|]. split; [apply lookup_insert_eq|].
    split; [apply same_rows_but_insert|done].
  - intros Hother. by rewrite decide_False.
Qed.

(** X9: a POST or PUT to [PostCreateView] from a logged-in user with data
    the form accepts stores one new post under a key that was free, with
    the requester as its author whatever the form built, and redirects to
    the requester's profile; with data the form rejects the form is
    rendered again with its errors and nothing is stored. *)
Theorem PostCreateView_creates_own_post request now db me u :
  request_user request = AuthenticatedUser me u →
  request_method request = POST ∨ request_method request = PUT →
  let data := request_POST request in
  (form_validate PostForm db None data = [] →
   ∃ k p, posts db !! k = None ∧ post_author p = me
          ∧ post_title p = post_title (PostForm_new now data)
          ∧ post_text p = post_text (PostForm_new now data)
          ∧ PostCreateView request now db
            = (redirect (url_profile (username u)), set_posts (insert k p) db))
  ∧ (form_validate PostForm db None data ≠ [] →
     rerenders_with_errors (PostCreateView request now db).1 "blog/create.html" data
     ∧ (PostCreateView request now db).2 = db).
Proof.
  intros Hme Hmethod data. subst data.
  unfold PostCreateView, LoginRequiredMixin_dispatch, CreateView_dispatch.
  rewrite Hme. simpl.
  assert (∀ (x y : HttpResponse * Store),
            match request_method request with
            | GET | HEAD => x
            | POST | PUT =>
                if is_valid (bind PostForm db None (request_POST request))
                then PostCreateView_form_valid request now db
                else (render "blog/create.html"
                        (with_form (bind PostForm db None (request_POST request))
                           ctx_empty), db)
            | OPTIONS => y
            | _ => (HttpResponseNotAllowed form_view_methods, db)
            end
            = if is_valid (bind PostForm db None (request_POST request))
              then PostCreateView_form_valid request now db
              else (render "blog/create.html"
                      (with_form (bind PostForm db None (request_POST request))
                         ctx_empty), db)) as ->
    by (intros; by destruct Hmethod as [-> | ->]).
  rewrite is_valid_bind. split.
  - intros Hok. rewrite bool_decide_eq_true_2 by done.
    unfold PostCreateView_form_valid. rewrite Hme.
    eexists _, _. split; [apply next_pk_fresh|].
    refine (conj _ (conj _ (conj _ eq_refl))); reflexivity.
  - intros Herr. rewrite bool_decide_eq_false_2 by done. simpl.
    split; [|done]. by eapply bound_form_rerendered.
Qed.

Lemma comments_of_delete db k c post_id :
  comments db !! k = Some c → comment_post c = post_id →
  S (comments_of (set_comments (delete k) db) post_id) = comments_of db post_id.
Proof.
  intros Hk Hc. unfold comments_of, post_comments, objects. simpl.
  rewrite <-(map_to_list_delete (comments db) k c Hk).
  by rewrite filter_cons_True.
Qed.

Lemma author_is_user me u p request :
  request_user request = AuthenticatedUser me u → post_author p = me →
  user_eq (request_user request) (post_author p) = true.
Proof. intros -> ->. simpl. by apply bool_decide_eq_true_2. Qed.

(** [PostUpdateView] once its own check and the mixin have let the author
    through. *)
Lemma PostUpdateView_author request id now db me u p :
  request_user request = AuthenticatedUser me u →
  posts db !! id = Some p → post_author p = me →
  PostUpdateView request id now db = UpdateView_dispatch id request now db.
Proof.
  intros Hme Hp Hauthor. unfold PostUpdateView, get_object.
  rewrite get_pk, Hp. simpl.
  rewrite (author_is_user me u p request) by done. simpl.
  unfold LoginRequiredMixin_dispatch. by rewrite Hme.
Qed.

Lemma PostDeleteView_author request id now db me u p :
  request_user request = AuthenticatedUser me u →
  posts db !! id = Some p → post_author p = me →
  PostDeleteView request id now db = DeleteView_dispatch id request now db.
Proof.
  intros Hme Hp Hauthor. unfold PostDeleteView, get_object.
  rewrite get_pk, Hp. simpl.
  rewrite (author_is_user me u p request) by done. simpl.
  unfold LoginRequiredMixin_dispatch. by rewrite Hme.
Qed.

(** X10: for the logged-in author of a stored post, [PostUpdateView]
    renders the form for the post on GET or HEAD without writing; on POST or
    PUT with data the form accepts it writes the updated instance under the
    post's key, leaves every other post and the other tables as they were
    and redirects to the post's detail page; with data the form rejects it
    renders the form again with its errors and writes nothing. *)
Theorem PostUpdateView_by_author request id now db me u p :
  request_user request = AuthenticatedUser me u →
  posts db !! id = Some p → post_author p = me →
  let data := request_POST request in
  let db' := (PostUpdateView request id now db).2 in
  (request_method request = GET ∨ request_method request = HEAD →
     PostUpdateView request id now db
     = (render "blog/create.html"
          (with_post (id, p) (with_form (unbound PostForm (Some id)) ctx_empty)),
        db))
  ∧ (request_method request = POST ∨ request_method request = PUT →
     form_validate PostForm db (Some id) data = [] →
     (PostUpdateView request id now db).1 = redirect (url_post_detail id)
     ∧ posts db' !! id = Some (PostForm_update data p)
     ∧ same_rows_but id (posts db) (posts db')
     ∧ users db' = users db ∧ categories db' = categories db
     ∧ comments db' = comments db)
  ∧ (request_method request = POST ∨ request_method request = PUT →
     form_validate PostForm db (Some id) data ≠ [] →
     rerenders_with_errors (PostUpdateView request id now db).1
       "blog/create.html" data
     ∧ db' = db).
Proof.
  intros Hme Hp Hauthor data db'. subst data db'.
  rewrite (PostUpdateView_author request id now db me u p) by done.
  unfold UpdateView_dispatch, get_object. rewrite get_pk, Hp. simpl.
  split; [|split].
  - by intros [-> | ->].
  - intros Hmethod Hok.
    assert ((request_method request = POST ∨ request_method request = PUT) ∧
            is_valid (bind PostForm db (Some id) (request_POST request)) = true)
      as [[-> | ->] ->]
      by (by rewrite is_valid_bind, bool_decide_eq_true_2).
    all: simpl; split; [done|]; split; [apply lookup_insert_eq|];
      split; [apply same_rows_but_insert|done].
  - intros Hmethod Herr.
    assert ((request_method request = POST ∨ request_method request = PUT) ∧
            is_valid (bind PostForm db (Some id) (request_POST request)) = false)
      as [[-> | ->] ->]
      by (by rewrite is_valid_bind, bool_decide_eq_false_2).
    all: simpl; split; [|done]; by eapply bound_form_rerendered.
Qed.

(** X11: for the logged-in author of a stored post, [PostDeleteView]
    renders its template with the post on GET or HEAD without writing; on POST or
    DELETE it removes the post, leaves every other post, the users, the
    categories and the comments of other posts as they were, adds no
    comment, and redirects to the author's profile. *)
Theorem PostDeleteView_by_author request id now db me u p :
  request_user request = AuthenticatedUser me u →
  posts db !! id = Some p → post_author p = me →
  let db' := (PostDeleteView request id now db).2 in
  (request_method request = GET ∨ request_method request = HEAD →
     db' = db
     ∧ ∃ context,
         (PostDeleteView request id now db).1 = render "blog/detail.html" context
         ∧ ctx_post context = Some (id, p))
  ∧ (request_method request = POST ∨ request_method request = DELETE →
     (PostDeleteView request id now db).1 = redirect (url_profile (username u))
     ∧ posts db' !! id = None
     ∧ same_rows_but id (posts db) (posts db')
     ∧ users db' = users db ∧ categories db' = categories db
     ∧ (∀ k c, comments db !! k = Some c → comment_post c ≠ id →
               comments db' !! k = Some c)
     ∧ (∀ k c, comments db' !! k = Some c → comments db !! k = Some c)).
Proof.
  intros Hme Hp Hauthor db'. subst db'.
  rewrite (PostDeleteView_author request id now db me u p) by done.
  unfold DeleteView_dispatch, get_object. rewrite get_pk, Hp, Hme. simpl.
  split.
  - intros [-> | ->]; (split; [done|by eexists]).
  - intros Hmethod.
    assert (∀ k c, comments (delete_post id db) !! k = Some c ↔
                   comments db !! k = Some c ∧ comment_post c ≠ id) as Hcomments.
    { intros k c. unfold delete_post. simpl.
      by rewrite (map_lookup_filter_Some (λ c : N * Comment, comment_post c.2 ≠ id)). }
    destruct Hmethod as [-> | ->]; simpl.
    all: split; [done|]; split; [apply lookup_delete_eq|];
      split; [apply same_rows_but_delete|]; split; [done|]; split; [done|];
      split; intros k c; rewrite Hcomments; tauto.
Qed.

(** X12: [add_comment] does not ask whether the requester may see the
    post.  A logged-in user who is not the author of a stored post that is
    not publicly visible gets not-found from [post_detail], yet a POST to
    [add_comment] with data the form accepts stores a comment on that post
    and redirects to the detail page, which still answers not-found; for an
    identifier no post has, [add_comment] answers not-found and stores
    nothing. *)
Theorem add_comment_ignores_visibility request id now db me u :
  request_user request = AuthenticatedUser me u →
  request_method request = POST →
  (posts db !! id = None → add_comment request id now db = (Http404, db))
  ∧ (∀ p, posts db !! id = Some p → post_author p ≠ me →
          ¬ publicly_visible db now p →
          form_validate CommentForm db None (request_POST request) = [] →
          let db' := (add_comment request id now db).2 in
          post_detail request id now db = Http404
          ∧ (add_comment request id now db).1 = redirect (url_post_detail id)
          ∧ comments_of db' id = S (comments_of db id)
          ∧ post_detail request id now db' = Http404).
Proof.
  intros Hme Hpost.
  assert (∀ p db0, posts db0 !! id = Some p → post_author p ≠ me →
                   ¬ publicly_visible db0 now p →
                   post_detail request id now db0 = Http404) as Hhidden.
  { intros p db0 Hp Hother Hvis. unfold post_detail.
    rewrite Hme, get_pk_filter, Hp. rewrite decide_False; [done|].
    intros [Hpub|Hauthor]; [eauto using published_visible|done]. }
  unfold add_comment, login_required, require_http_methods.
  rewrite Hme. simpl. rewrite decide_True by (rewrite Hpost; left).
  rewrite get_pk. split.
  - by intros ->.
  - intros p Hp Hother Hvis Hok. rewrite Hp.
    rewrite is_valid_bind, bool_decide_eq_true_2 by done. simpl.
    split; [by apply (Hhidden p)|]. split; [done|].
    split; [apply comments_of_insert; [apply next_pk_fresh|done]|].
    by apply (Hhidden p).
Qed.

(** X13: for the logged-in author of a stored comment of a stored post,
    [edit_comment] on POST with data the form accepts writes the updated
    instance under the comment's key, leaves every other comment and the
    other tables as they were and redirects to the post's detail page; on
    any other method it renders the form for the comment and writes
    nothing. *)
Theorem edit_comment_by_author request post_id comment_id now db me u p c :
  request_user request = AuthenticatedUser me u →
  posts db !! post_id = Some p → comments db !! comment_id = Some c →
  comment_post c = post_id → comment_author c = me →
  let data := request_POST request in
  let db' := (edit_comment request post_id comment_id now db).2 in
  (request_method request = POST →
   form_validate CommentForm db (Some comment_id) data = [] →
   (edit_comment request post_id comment_id now db).1
   = redirect (url_post_detail post_id)
   ∧ comments db' !! comment_id = Some (CommentForm_update data c)
   ∧ same_rows_but comment_id (comments db) (comments db')
   ∧ users db' = users db ∧ categories db' = categories db
   ∧ posts db' = posts db)
  ∧ (request_method request ≠ POST →
     edit_comment request post_id comment_id now db
     = (render "blog/comment.html"
          (with_form (unbound CommentForm (Some comment_id))
             (with_comment (comment_id, c) (with_post (post_id, p) ctx_empty))),
        db)).
Proof.
  intros Hme Hp Hc Hcp Hauthor data db'. subst data db'.
  unfold edit_comment, login_required.
  rewrite get_post_comment_lookup, Hp, Hc, Hme. simpl.
  rewrite decide_True by done. simpl.
  rewrite bool_decide_eq_true_2 by done. simpl. split.
  - intros Hpost Hok. rewrite decide_True by done.
    rewrite is_valid_bind, bool_decide_eq_true_2 by done. simpl.
    split; [done|]. split; [apply lookup_insert_eq|].
    split; [apply same_rows_but_insert|done].
  - intros Hother. by rewrite decide_False.
Qed.

(** X14: for the logged-in author of a stored comment of a stored post,
    [delete_comment] on POST removes that comment, so the post has one
    comment fewer, leaves every other comment and the other tables as they
    were and redirects to the post's detail page; on any other method it
    renders the confirmation page and removes nothing. *)
Theorem delete_comment_by_author request post_id comment_id now db me u p c :
  request_user request = AuthenticatedUser me u →
  posts db !! post_id = Some p → comments db !! comment_id = Some c →
  comment_post c = post_id → comment_author c = me →
  let db' := (delete_comment request post_id comment_id now db).2 in
  (request_method request = POST →
   (delete_comment request post_id comment_id now db).1
   = redirect (url_post_detail post_id)
   ∧ comments db' !! comment_id = None
   ∧ same_rows_but comment_id (comments db) (comments db')
   ∧ S (comments_of db' post_id) = comments_of db post_id
   ∧ users db' = users db ∧ categories db' = categories db
   ∧ posts db' = posts db)
  ∧ (request_method request ≠ POST →
     delete_comment request post_id comment_id now db
     = (render "blog/comment.html"
          (with_comment (comment_id, c) (with_post (post_id, p) ctx_empty)),
        db)).
Proof.
  intros Hme Hp Hc Hcp Hauthor db'. subst db'.
  unfold delete_comment, login_required.
  rewrite get_post_comment_lookup, Hp, Hc, Hme. simpl.
  rewrite decide_True by done. simpl.
  rewrite bool_decide_eq_true_2 by done. simpl. split.
  - intros Hpost. rewrite decide_True by done. simpl.
    split; [done|]. split; [apply lookup_delete_eq|].
    split; [apply same_rows_but_delete|].
    split; [by apply (comments_of_delete db comment_id c)|done].
  - intros Hother. by rewrite decide_False.
Qed.

End WritesOfAuthors.

(** ** What the views never write *)

Section Frames.
Context `{F : Forms}.
Implicit Types (db : Store) (request : HttpRequest).

(** Take a view apart along its case distinctions. *)
Ltac view_cases :=
  repeat (simpl;
          match goal with
          | |- context [match ?x with _ => _ end] => destruct x eqn:?
          end);
  simpl; try done; try discriminate.

Ltac unfold_views :=
  unfold registration, edit_profile, PostCreateView, PostUpdateView,
    PostDeleteView, add_comment, edit_comment, delete_comment, login_required,
    require_http_methods, LoginRequiredMixin_dispatch, CreateView_dispatch,
    UpdateView_dispatch, DeleteView_dispatch, PostCreateView_form_valid.

(** X15: a request with one of the methods GET, HEAD, OPTIONS and TRACE
    leaves the store as it was, in every view that can write. *)
Theorem safe_methods_never_write request now db :
  request_method request ∈ [GET; HEAD; OPTIONS; TRACE] →
  (registration request now db).2 = db
  ∧ (edit_profile request now db).2 = db
  ∧ (PostCreateView request now db).2 = db
  ∧ (∀ post_id,
       (PostUpdateView request post_id now db).2 = db
       ∧ (PostDeleteView request post_id now db).2 = db
       ∧ (add_comment request post_id now db).2 = db)
  ∧ (∀ post_id comment_id,
       (edit_comment request post_id comment_id now db).2 = db
       ∧ (delete_comment request post_id comment_id now db).2 = db).
Proof.
  intros Hsafe. unfold_views.
  split; [|split; [|split; [|split]]]; intros; repeat split; view_cases.
  all: exfalso;
    try match goal with
        | H : request_method _ = _ |- _ => rewrite H in Hsafe
        | H : request_method _ ∈ [POST] |- _ =>
            rewrite (proj1 (list_elem_of_singleton _ _) H) in Hsafe
        end;
    repeat (apply elem_of_cons in Hsafe as [?|Hsafe]; [done|]);
    by apply elem_of_nil in Hsafe.
Qed.

(** X16: whatever the request, no view writes the categories; the post
    views write no user, the two views of the profile and the comment views
    write no post, and only the comment views and the deletion of a post
    write comments. *)
Theorem views_write_their_own_tables request now db :
  (∀ db', db' = (registration request now db).2
          ∨ db' = (edit_profile request now db).2 →
          categories db' = categories db ∧ posts db' = posts db
          ∧ comments db' = comments db)
  ∧ (∀ db' post_id, db' = (PostCreateView request now db).2
                    ∨ db' = (PostUpdateView request post_id now db).2 →
                    categories db' = categories db ∧ users db' = users db
                    ∧ comments db' = comments db)
  ∧ (∀ post_id,
       categories (PostDeleteView request post_id now db).2 = categories db
       ∧ users (PostDeleteView request post_id now db).2 = users db)
  ∧ (∀ db' post_id comment_id,
       db' = (add_comment request post_id now db).2
       ∨ db' = (edit_comment request post_id comment_id now db).2
       ∨ db' = (delete_comment request post_id comment_id now db).2 →
       categories db' = categories db ∧ users db' = users db
       ∧ posts db' = posts db).
Proof.
  unfold_views.
  split; [|split; [|split]].
  - intros db' [-> | ->]; view_cases.
  - intros db' post_id [-> | ->]; view_cases.
  - intros post_id. split; view_cases.
  - intros db' post_id comment_id [-> | [-> | ->]]; view_cases.
Qed.

(** X17: an anonymous request writes nothing through any view but
    [registration]. *)
Theorem anonymous_never_writes request now db :
  request_user request = AnonymousUser →
  (edit_profile request now db).2 = db
  ∧ (PostCreateView request now db).2 = db
  ∧ (∀ post_id,
       (PostUpdateView request post_id now db).2 = db
       ∧ (PostDeleteView request post_id now db).2 = db
       ∧ (add_comment request post_id now db).2 = db)
  ∧ (∀ post_id comment_id,
       (edit_comment request post_id comment_id now db).2 = db
       ∧ (delete_comment request post_id comment_id now db).2 = db).
Proof.
  intros Hanon. unfold_views. rewrite Hanon. simpl.
  split; [done|]. split; [done|]. split; [|done].
  intros post_id. unfold get_object. rewrite get_pk.
  by destruct (posts db !! post_id).
Qed.

End Frames.

(** ** One view after another *)

Section RoundTrips.
Context `{F : Forms}.
Implicit Types (db : Store) (request viewer : HttpRequest).

(** [post_detail] by cases: the post must be stored, and be published or
    the requester's own. *)
Lemma post_detail_cases viewer id now db :
  post_detail viewer id now db =
    match posts db !! id with
    | Some p =>
        if decide (published db now (id, p)
                   ∨ user_eq (request_user viewer) (post_author p) = true)
        then render "blog/detail.html"
               (with_post (id, p)
                  (with_comments (post_comments db id)
                     (with_form (unbound CommentForm None) ctx_empty)))
        else Http404
    | None => Http404
    end.
Proof.
  unfold post_detail.
  destruct (request_user viewer) as [|me u]; rewrite get_pk_filter;
    destruct (posts db !! id) as [p|]; try done; simpl.
  - destruct (decide (published db now (id, p))) as [Hpub|Hpub].
    + by rewrite decide_True by (by left).
    + by rewrite decide_False by (by intros [?|?]).
  - destruct (decide (published db now (id, p) ∨ post_author p = me)) as [Hv|Hv].
    + rewrite decide_True; [done|]. destruct Hv as [?|<-]; [by left|right].
      by apply bool_decide_eq_true_2.
    + rewrite decide_False; [done|]. intros [?|Heq%bool_decide_eq_true_1].
      * apply Hv. by left.
      * apply Hv. by right.
Qed.

(** Whether a post is published does not depend on the comments. *)
Lemma published_set_comments f db now o :
  published (set_comments f db) now o ↔ published db now o.
Proof. done. Qed.

Lemma post_detail_set_comments viewer id now db f template context :
  post_detail viewer id now db = render template context →
  ∃ p, posts db !! id = Some p
       ∧ template = "blog/detail.html"%string
       ∧ ctx_post context = Some (id, p)
       ∧ ctx_comments context = Some (post_comments db id)
       ∧ post_detail viewer id now (set_comments f db)
         = render template
             (with_post (id, p)
                (with_comments (post_comments (set_comments f db) id)
                   (with_form (unbound CommentForm None) ctx_empty))).
Proof.
  rewrite !post_detail_cases. simpl.
  destruct (posts db !! id) as [p|]; [|done].
  change (published (set_comments f db) now (id, p)) with (published db now (id, p)).
  destruct (decide _); [|done]. intros [= <- <-]. by exists p.
Qed.

Lemma comments_of_insert_ne db k c post_id :
  comments db !! k = None → comment_post c ≠ post_id →
  comments_of (set_comments (insert k c) db) post_id = comments_of db post_id.
Proof.
  intros Hk Hc. unfold comments_of, post_comments, objects. simpl.
  rewrite map_to_list_insert by done. by rewrite filter_cons_False.
Qed.

(** What [add_comment] returns for a logged-in POST the form accepts. *)
Lemma add_comment_stores request id now db me u p :
  request_user request = AuthenticatedUser me u →
  request_method request = POST →
  posts db !! id = Some p →
  form_validate CommentForm db None (request_POST request) = [] →
  ∃ k c, comments db !! k = None ∧ comment_post c = id ∧ comment_author c = me
         ∧ add_comment request id now db
           = (redirect (url_post_detail id), set_comments (insert k c) db).
Proof.
  intros Hme Hpost Hp Hok.
  unfold add_comment, login_required, require_http_methods.
  rewrite Hme. simpl. rewrite decide_True by (rewrite Hpost; left).
  rewrite get_pk, Hp, is_valid_bind, bool_decide_eq_true_2 by done. simpl.
  eexists _, _. split; [apply next_pk_fresh|].
  refine (conj _ (conj _ eq_refl)); reflexivity.
Qed.

(** X18: after a logged-in POST to [add_comment] that the form accepts,
    whoever [post_detail] showed the post to is shown it again, with the
    comments shown before and the new comment, written by the requester. *)
Theorem add_comment_then_post_detail request viewer id now now' db me u p :
  request_user request = AuthenticatedUser me u →
  request_method request = POST →
  posts db !! id = Some p →
  form_validate CommentForm db None (request_POST request) = [] →
  ∀ template context cs,
    post_detail viewer id now' db = render template context →
    ctx_comments context = Some cs →
    ∃ context' cs' k c,
      post_detail viewer id now' (add_comment request id now db).2
      = render template context'
      ∧ ctx_post context' = ctx_post context
      ∧ ctx_comments context' = Some cs'
      ∧ comments db !! k = None ∧ comment_post c = id ∧ comment_author c = me
      ∧ ∀ x, x ∈ cs' ↔ x = (k, c) ∨ x ∈ cs.
Proof.
  intros Hme Hpost Hp Hok template context cs Hshown Hcs.
  destruct (add_comment_stores request id now db me u p Hme Hpost Hp Hok)
    as (k & c & Hk & Hcp & Hca & ->). simpl.
  destruct (post_detail_set_comments viewer id now' db (insert k c) _ _ Hshown)
    as (p' & Hp' & -> & Hctx & Hold & ->).
  rewrite Hold in Hcs. injection Hcs as <-.
  eexists _, _, k, c. split; [done|]. split; [by rewrite Hctx|].
  split; [done|]. split; [done|]. split; [done|]. split; [done|].
  intros [k' c']. unfold post_comments. rewrite !list_elem_of_filter, !elem_of_objects.
  simpl. rewrite lookup_insert_Some. split.
  - intros [Hpost' [[<- <-]|[_ Hin]]]; [by left|by right].
  - intros [[= -> ->]|[Hpost' Hin]]; [by split; [|left]|].
    split; [done|]. right. split; [congruence|done].
Qed.

(** X19: after a logged-in POST to [add_comment] that the form accepts,
    [index] lists the same posts as before, the commented post with one
    comment more and every other post with the number it had. *)
Theorem add_comment_then_index request viewer id now now' db me u p :
  request_user request = AuthenticatedUser me u →
  request_method request = POST →
  posts db !! id = Some p →
  form_validate CommentForm db None (request_POST request) = [] →
  ∀ a, a ∈ listing (index viewer now' (add_comment request id now db).2) ↔
         ∃ b, b ∈ listing (index viewer now' db)
              ∧ ap_pk a = ap_pk b ∧ ap_post a = ap_post b
              ∧ comment_count a
                = if decide (ap_pk b = id) then S (comment_count b)
                  else comment_count b.
Proof.
  intros Hme Hpost Hp Hok a.
  destruct (add_comment_stores request id now db me u p Hme Hpost Hp Hok)
    as (k & c & Hk & Hcp & Hca & ->). simpl.
  unfold index, listing, paginate. simpl. rewrite !paginator_get_page. simpl.
  rewrite elem_of_order_by_desc, elem_of_annotate, list_elem_of_filter,
    elem_of_objects.
  change (published (set_comments (insert k c) db) now' (ap_pk a, ap_post a))
    with (published db now' (ap_pk a, ap_post a)).
  assert (comments_of (set_comments (insert k c) db) (ap_pk a)
          = if decide (ap_pk a = id) then S (comments_of db (ap_pk a))
            else comments_of db (ap_pk a)) as ->.
  { destruct (decide (ap_pk a = id)) as [Heq|Hne].
    - apply comments_of_insert; [done|congruence].
    - apply comments_of_insert_ne; [done|congruence]. }
  split.
  - intros ((Hpub & Hrow) & Hcount).
    exists {| ap_pk := ap_pk a; ap_post := ap_post a;
              comment_count := comments_of db (ap_pk a) |}.
    split; [by apply elem_of_post_list|]. by simpl.
  - intros (b & (Hpub & Hrow & Hcount)%elem_of_post_list & Hpk & Hpost' & Hc).
    rewrite Hpk, Hpost', Hc, Hcount. done.
Qed.

(** X20: after its logged-in author has removed a comment with a POST to
    [delete_comment], whoever [post_detail] showed the post to is shown it
    again, with the comments shown before except the removed one. *)
Theorem delete_comment_then_post_detail request viewer post_id comment_id
    now now' db me u p c :
  request_user request = AuthenticatedUser me u →
  request_method request = POST →
  posts db !! post_id = Some p → comments db !! comment_id = Some c →
  comment_post c = post_id → comment_author c = me →
  ∀ template context cs,
    post_detail viewer post_id now' db = render template context →
    ctx_comments context = Some cs →
    ∃ context' cs',
      post_detail viewer post_id now'
        (delete_comment request post_id comment_id now db).2
      = render template context'
      ∧ ctx_post context' = ctx_post context
      ∧ ctx_comments context' = Some cs'
      ∧ ∀ x, x ∈ cs' ↔ x ∈ cs ∧ x ≠ (comment_id, c).
Proof.
  intros Hme Hpost Hp Hc Hcp Hca template context cs Hshown Hcs.
  assert ((delete_comment request post_id comment_id now db).2
          = set_comments (delete comment_id) db) as ->.
  { unfold delete_comment, login_required.
    rewrite get_post_comment_lookup, Hp, Hc, Hme. simpl.
    rewrite decide_True by done. simpl.
    rewrite bool_decide_eq_true_2 by done. simpl.
    by rewrite decide_True by done. }
  destruct (post_detail_set_comments viewer post_id now' db (delete comment_id)
              _ _ Hshown) as (p' & Hp' & -> & Hctx & Hold & ->).
  rewrite Hold in Hcs. injection Hcs as <-.
  eexists _, _. split; [done|]. split; [by rewrite Hctx|]. split; [done|].
  intros [k' c']. unfold post_comments. rewrite !list_elem_of_filter, !elem_of_objects.
  simpl. rewrite lookup_delete_Some. split.
  - intros [Hpost' [Hne Hin]]. split; [done|]. congruence.
  - intros [[Hpost' Hin] Hne]. split; [done|]. split; [|done].
    intros <-. apply Hne. congruence.
Qed.

(** X21: after a logged-in POST or PUT to [PostCreateView] that the form
    accepts, the new post is stored under a key that was free,
    [post_detail] shows it to its author, and the profile the view
    redirects to has it in its listing, whatever flag, category and date
    the form gave it.  The requester is a stored user and the name column
    is unique. *)
Theorem PostCreateView_then_found request now now' db me u :
  request_user request = AuthenticatedUser me u →
  request_method request = POST ∨ request_method request = PUT →
  form_validate PostForm db None (request_POST request) = [] →
  users db !! me = Some u → username_unique db →
  let db' := (PostCreateView request now db).2 in
  ∃ k p,
    posts db !! k = None ∧ posts db' !! k = Some p
    ∧ (PostCreateView request now db).1 = redirect (url_profile (username u))
    ∧ (∃ context,
         post_detail request k now' db' = render "blog/detail.html" context
         ∧ ctx_post context = Some (k, p))
    ∧ (∃ a, ap_pk a = k ∧ ap_post a = p
            ∧ a ∈ listing (profile request (username u) now' db')).
Proof.
  intros Hme Hmethod Hok Hu Huniq db'. subst db'.
  assert (∃ p, post_author p = me
               ∧ PostCreateView request now db
                 = (redirect (url_profile (username u)),
                    set_posts (insert (next_pk (posts db)) p) db))
    as (p & Hauthor & ->).
  { unfold PostCreateView, LoginRequiredMixin_dispatch, CreateView_dispatch.
    rewrite Hme. simpl.
    assert (is_valid (bind PostForm db None (request_POST request)) = true) as Hv
      by (by rewrite is_valid_bind, bool_decide_eq_true_2).
    destruct Hmethod as [-> | ->]; rewrite Hv;
      unfold PostCreateView_form_valid; rewrite Hme;
      eexists; refine (conj _ eq_refl); reflexivity. }
  simpl. set (k := next_pk (posts db)).
  set (db' := set_posts (insert k p) db).
  assert (posts db' !! k = Some p) as Hp by apply lookup_insert_eq.
  exists k, p. split; [apply next_pk_fresh|]. split; [done|]. split; [done|].
  split.
  - rewrite post_detail_cases, Hp. rewrite decide_True; [by eexists|].
    right. by apply (author_is_user me u).
  - exists {| ap_pk := k; ap_post := p; comment_count := comments_of db' k |}.
    split; [done|]. split; [done|].
    unfold profile, listing. rewrite (get_user_by_name db' me u) by done.
    rewrite Hme. simpl. rewrite bool_decide_eq_true_2 by done.
    unfold paginate. rewrite paginator_get_page. simpl.
    by apply elem_of_post_list.
Qed.

(** X22: after its logged-in author has removed a post with a POST or
    DELETE to [PostDeleteView], [post_detail] answers not-found for the
    post to every requester, no listing of [index], [category_posts] or
    [profile] has it, and a logged-in POST to [add_comment] for it answers
    not-found. *)
Theorem PostDeleteView_then_gone request viewer id now now' db me u p :
  request_user request = AuthenticatedUser me u →
  posts db !! id = Some p → post_author p = me →
  request_method request = POST ∨ request_method request = DELETE →
  let db' := (PostDeleteView request id now db).2 in
  post_detail viewer id now' db' = Http404
  ∧ (∀ r a, listing_view viewer now' db' r → a ∈ listing r → ap_pk a ≠ id)
  ∧ (is_authenticated (request_user viewer) = true →
     request_method viewer = POST →
     add_comment viewer id now' db' = (Http404, db')).
Proof.
  intros Hme Hp Hauthor Hmethod db'.
  assert (posts db' !! id = None) as Hgone.
  { subst db'. rewrite (PostDeleteView_author request id now db me u p) by done.
    unfold DeleteView_dispatch, get_object. rewrite get_pk, Hp, Hme.
    destruct Hmethod as [-> | ->]; apply lookup_delete_eq. }
  clearbody db'. split; [|split].
  - by rewrite post_detail_cases, Hgone.
  - intros r a Hview Hin Heq.
    assert (posts db' !! ap_pk a = Some (ap_post a)) as Hrow; [|congruence].
    destruct Hview as [->|[[slug ->]|[name ->]]]; revert Hin.
    + unfold index, listing, paginate. simpl. rewrite paginator_get_page. simpl.
      rewrite elem_of_post_list. tauto.
    + unfold category_posts, listing, paginate.
      destruct (get_object_or_404 _ _); simpl; try by intros ?%elem_of_nil.
      rewrite paginator_get_page. simpl. rewrite elem_of_post_list. tauto.
    + unfold profile, listing, paginate.
      destruct (get_object_or_404 _ _); simpl; try by intros ?%elem_of_nil.
      rewrite paginator_get_page. simpl.
      destruct (user_eq _ _); rewrite elem_of_post_list; tauto.
  - intros Hauth Hpost. unfold add_comment, login_required, require_http_methods.
    rewrite Hauth, decide_True by (rewrite Hpost; left).
    by rewrite get_pk, Hgone.
Qed.

End RoundTrips.

(** ** Every listed post is on some page *)

Section Reachable.
Implicit Types (db : Store) (a : AnnotatedPost) (request : HttpRequest).

Lemma paginate_reachable post_list request a :
  a ∈ post_list →
  ∃ q, a ∈ page_object_list (paginate post_list (with_GET [("page", q)] request)).
Proof.
  intros Hin. unfold paginate, with_GET. simpl.
  destruct (elem_on_requested_page {| object_list := post_list; per_page := 10 |} a)
    as [q Hq]; simpl; [lia|done|].
  exists q. by change (QueryDict_get "page" [("page", q)]) with (Some q).
Qed.

(** X23: every post in the listing of [index], [category_posts] or
    [profile] is on the page that the same request shows for some value of
    the [page] parameter. *)
Theorem listed_posts_are_reachable request now db a :
  (a ∈ listing (index request now db) →
     ∃ q, a ∈ shown (index (with_GET [("page", q)] request) now db))
  ∧ (∀ slug,
       a ∈ listing (category_posts request slug now db) →
       ∃ q, a ∈ shown (category_posts (with_GET [("page", q)] request) slug now db))
  ∧ (∀ name,
       a ∈ listing (profile request name now db) →
       ∃ q, a ∈ shown (profile (with_GET [("page", q)] request) name now db)).
Proof.
  split; [|split].
  - unfold index, listing, shown. simpl.
    unfold paginate at 1. rewrite paginator_get_page. simpl.
    apply paginate_reachable.
  - intros slug. unfold category_posts, listing, shown.
    destruct (get_object_or_404 _ _); simpl; try by intros ?%elem_of_nil.
    unfold paginate at 1. rewrite paginator_get_page. simpl.
    apply paginate_reachable.
  - intros name. unfold profile, listing, shown.
    destruct (get_object_or_404 _ _); simpl; try by intros ?%elem_of_nil.
    unfold paginate at 1. rewrite paginator_get_page. simpl.
    apply paginate_reachable.
Qed.

End Reachable.

(** ** The further statements on the sample data *)

Lemma index_lists_public_posts_witness :
  {| ap_pk := 1; ap_post := Sample.post1; comment_count := 1 |}
  ∈ listing (index (Sample.request GET AnonymousUser [] []) Sample.now Sample.db).
Proof.
  destruct (index_lists_public_posts (Sample.request GET AnonymousUser [] [])
              Sample.now Sample.db) as [_ Hiff].
  apply Hiff. split; [reflexivity|]. split; [|reflexivity].
  split; [reflexivity|]. split; [by exists 2%N, Sample.travel|by vm_compute].
Defined.

Lemma listings_newest_first_witness :
  newest_first
    (shown (index (Sample.request GET AnonymousUser [] []) Sample.now Sample.db)).
Proof.
  exact (proj2 (listings_newest_first (Sample.request GET AnonymousUser [] [])
                  Sample.now Sample.db _ (or_introl eq_refl))).
Defined.

Lemma post_detail_hides_post_witness :
  post_detail (Sample.request GET Sample.as_bob [] []) 2 Sample.now Sample.db
  = Http404.
Proof.
  destruct (post_detail_hides_post (Sample.request GET Sample.as_bob [] []) 2
              Sample.now Sample.db) as [_ Hhidden].
  apply (Hhidden Sample.post2 eq_refl); [|reflexivity].
  intros [Hflag _]. discriminate.
Defined.

Lemma category_posts_lists_category_witness :
  ∃ context,
    category_posts (Sample.request GET AnonymousUser [] []) "travel"
      Sample.now Sample.db = render "blog/category.html" context
    ∧ ctx_category context = Some (2%N, Sample.travel).
Proof.
  destruct (category_posts_lists_category (Sample.request GET AnonymousUser [] [])
              "travel" Sample.now Sample.db 2 Sample.travel sample_slug_unique
              eq_refl eq_refl eq_refl) as (context & Hrender & Hcat & _).
  by exists context.
Defined.

Lemma profile_lists_author_posts_witness :
  profile (Sample.request GET AnonymousUser [] []) "nobody" Sample.now Sample.db
  = Http404
  ∧ ∃ context,
      profile (Sample.request GET AnonymousUser [] []) "alice" Sample.now Sample.db
      = render "blog/profile.html" context
      ∧ ctx_profile context = Some (1%N, Sample.alice).
Proof.
  split.
  - apply profile_lists_author_posts.
    intros k u Hk. unfold Sample.db in Hk. simpl in Hk.
    apply lookup_insert_Some in Hk as [[<- <-]|[_ Hk]]; [discriminate|].
    apply lookup_insert_Some in Hk as [[<- <-]|[_ Hk]]; [discriminate|done].
  - destruct (profile_lists_author_posts (Sample.request GET AnonymousUser [] [])
                "alice" Sample.now Sample.db) as [_ Hstored].
    destruct (Hstored 1%N Sample.alice sample_username_unique eq_refl eq_refl)
      as (context & Hrender & Hprofile & _).
    by exists context.
Defined.


Lemma registration_adds_user_witness :
  let request :=
    Sample.request POST AnonymousUser [] [("username", "carol"); ("password1", "pw")] in
  (registration (F := Sample.forms) request Sample.now Sample.db).1
  = redirect url_login
  ∧ size (users (registration (F := Sample.forms) request Sample.now Sample.db).2)
    = S (size (users Sample.db)).
Proof.
  intros request.
  destruct (registration_adds_user (F := Sample.forms) request Sample.now Sample.db)
    as [Hvalid _].
  destruct (Hvalid eq_refl eq_refl) as (k & _ & Heq & Hsize & _).
  split; [by rewrite Heq|exact Hsize].
Defined.

Lemma edit_profile_writes_own_row_witness :
  let request := Sample.request POST Sample.as_bob [] [("username", "robert")] in
  (edit_profile (F := Sample.forms) request Sample.now Sample.db).1
  = redirect (url_profile "robert")
  ∧ users (edit_profile (F := Sample.forms) request Sample.now Sample.db).2 !! 1%N
    = Some Sample.alice.
Proof.
  intros request.
  destruct (edit_profile_writes_own_row (F := Sample.forms) request Sample.now
              Sample.db 2 Sample.bob eq_refl) as [Hvalid _].
  destruct (Hvalid eq_refl eq_refl) as (Hredirect & _ & Hothers & _).
  split; [exact Hredirect|]. by rewrite (Hothers 1%N).
Defined.

Lemma PostCreateView_creates_own_post_witness :
  let request :=
    Sample.request POST Sample.as_bob [] [("title", "Porto"); ("text", "...")] in
  ∃ k p, posts Sample.db !! k = None ∧ post_author p = 2%N
         ∧ PostCreateView (F := Sample.forms) request Sample.now Sample.db
           = (redirect (url_profile "bob"), set_posts (insert k p) Sample.db).
Proof.
  intros request.
  destruct (PostCreateView_creates_own_post (F := Sample.forms) request Sample.now
              Sample.db 2 Sample.bob eq_refl (or_introl eq_refl)) as [Hvalid _].
  destruct (Hvalid eq_refl) as (k & p & Hk & Hauthor & _ & _ & Heq).
  by exists k, p.
Defined.

Lemma PostUpdateView_by_author_witness :
  let request :=
    Sample.request POST Sample.as_alice [] [("title", "Lisboa"); ("text", "...")] in
  (PostUpdateView (F := Sample.forms) request 1 Sample.now Sample.db).1
  = redirect (url_post_detail 1)
  ∧ posts (PostUpdateView (F := Sample.forms) request 1 Sample.now Sample.db).2 !! 2%N
    = Some Sample.post2.
Proof.
  intros request.
  destruct (PostUpdateView_by_author (F := Sample.forms) request 1 Sample.now
              Sample.db 1 Sample.alice Sample.post1 eq_refl eq_refl eq_refl)
    as (_ & Hvalid & _).
  destruct (Hvalid (or_introl eq_refl) eq_refl) as (Hredirect & _ & Hothers & _).
  split; [exact Hredirect|]. by rewrite (Hothers 2%N).
Defined.

Lemma PostDeleteView_by_author_witness :
  let request := Sample.request POST Sample.as_alice [] [] in
  (PostDeleteView request 1 Sample.now Sample.db).1 = redirect (url_profile "alice")
  ∧ posts (PostDeleteView request 1 Sample.now Sample.db).2 !! 1%N = None.
Proof.
  intros request.
  destruct (PostDeleteView_by_author request 1 Sample.now Sample.db 1 Sample.alice
              Sample.post1 eq_refl eq_refl eq_refl) as [_ Hpost].
  destruct (Hpost (or_introl eq_refl)) as (Hredirect & Hgone & _).
  by split.
Defined.

Lemma add_comment_ignores_visibility_witness :
  let request := Sample.request POST Sample.as_bob [] [("text", "first")] in
  post_detail request 2 Sample.now Sample.db = Http404
  ∧ (add_comment (F := Sample.forms) request 2 Sample.now Sample.db).1
    = redirect (url_post_detail 2)
  ∧ comments_of (add_comment (F := Sample.forms) request 2 Sample.now Sample.db).2 2
    = S (comments_of Sample.db 2).
Proof.
  intros request.
  destruct (add_comment_ignores_visibility (F := Sample.forms) request 2 Sample.now
              Sample.db 2 Sample.bob eq_refl eq_refl) as [_ Hhidden].
  destruct (Hhidden Sample.post2 eq_refl) as (H404 & Hredirect & Hcount & _).
  - vm_compute. discriminate.
  - intros [Hflag _]. discriminate.
  - reflexivity.
  - by split.
Defined.

Lemma edit_comment_by_author_witness :
  let request := Sample.request POST Sample.as_bob [] [("text", "Very nice")] in
  (edit_comment (F := Sample.forms) request 1 1 Sample.now Sample.db).1
  = redirect (url_post_detail 1)
  ∧ comment_text
      <$> comments (edit_comment (F := Sample.forms) request 1 1 Sample.now
                      Sample.db).2 !! 1%N
    = Some "Very nice"%string.
Proof.
  intros request.
  destruct (edit_comment_by_author (F := Sample.forms) request 1 1 Sample.now
              Sample.db 2 Sample.bob Sample.post1 Sample.comment1
              eq_refl eq_refl eq_refl eq_refl eq_refl) as [Hvalid _].
  destruct (Hvalid eq_refl eq_refl) as (Hredirect & Hrow & _).
  split; [exact Hredirect|]. by rewrite Hrow.
Defined.

Lemma delete_comment_by_author_witness :
  let request := Sample.request POST Sample.as_bob [] [] in
  (delete_comment request 1 1 Sample.now Sample.db).1 = redirect (url_post_detail 1)
  ∧ comments (delete_comment request 1 1 Sample.now Sample.db).2 !! 1%N = None
  ∧ S (comments_of (delete_comment request 1 1 Sample.now Sample.db).2 1)
    = comments_of Sample.db 1.
Proof.
  intros request.
  destruct (delete_comment_by_author request 1 1 Sample.now Sample.db 2 Sample.bob
              Sample.post1 Sample.comment1 eq_refl eq_refl eq_refl eq_refl eq_refl)
    as [Hpost _].
  destruct (Hpost eq_refl) as (Hredirect & Hgone & _ & Hcount & _).
  by repeat split.
Defined.

Lemma safe_methods_never_write_witness :
  (delete_comment (Sample.request GET Sample.as_bob [] []) 1 1 Sample.now Sample.db).2
  = Sample.db.
Proof.
  destruct (safe_methods_never_write (F := Sample.forms)
              (Sample.request GET Sample.as_bob [] []) Sample.now Sample.db)
    as (_ & _ & _ & _ & Hcomments).
  - left.
  - exact (proj2 (Hcomments 1%N 1%N)).
Defined.

Lemma views_write_their_own_tables_witness :
  let request := Sample.request POST Sample.as_bob [] [("text", "hello")] in
  posts (add_comment (F := Sample.forms) request 1 Sample.now Sample.db).2
  = posts Sample.db.
Proof.
  intros request.
  destruct (views_write_their_own_tables (F := Sample.forms) request Sample.now
              Sample.db) as (_ & _ & _ & Hcomments).
  exact (proj2 (proj2 (Hcomments _ 1%N 1%N (or_introl eq_refl)))).
Defined.

Lemma anonymous_never_writes_witness :
  let request := Sample.request POST AnonymousUser [] [("title", "x"); ("text", "y")] in
  (PostUpdateView (F := Sample.forms) request 1 Sample.now Sample.db).2 = Sample.db.
Proof.
  intros request.
  destruct (anonymous_never_writes (F := Sample.forms) request Sample.now Sample.db
              eq_refl) as (_ & _ & Hposts & _).
  exact (proj1 (Hposts 1%N)).
Defined.

Lemma add_comment_then_post_detail_witness :
  let request := Sample.request POST Sample.as_alice [] [("text", "Thanks")] in
  let viewer := Sample.request GET AnonymousUser [] [] in
  ∃ context' cs',
    post_detail viewer 1 Sample.now
      (add_comment (F := Sample.forms) request 1 Sample.now Sample.db).2
    = render "blog/detail.html" context'
    ∧ ctx_comments context' = Some cs'
    ∧ (1%N, Sample.comment1) ∈ cs'.
Proof.
  intros request viewer.
  assert (post_detail viewer 1 Sample.now Sample.db
          = render "blog/detail.html"
              (with_post (1%N, Sample.post1)
                 (with_comments [(1%N, Sample.comment1)]
                    (with_form (unbound CommentForm None) ctx_empty))))
    as Hshown by (vm_compute; reflexivity).
  destruct (add_comment_then_post_detail (F := Sample.forms) request viewer 1
              Sample.now Sample.now Sample.db 1 Sample.alice Sample.post1
              eq_refl eq_refl eq_refl eq_refl _ _ _ Hshown eq_refl)
    as (context' & cs' & k & c & Hrender & _ & Hcs & _ & _ & _ & Hiff).
  exists context', cs'. split; [exact Hrender|]. split; [exact Hcs|].
  apply Hiff. right. left.
Defined.

Lemma add_comment_then_index_witness :
  let request := Sample.request POST Sample.as_alice [] [("text", "Thanks")] in
  let viewer := Sample.request GET AnonymousUser [] [] in
  {| ap_pk := 1; ap_post := Sample.post1; comment_count := 2 |}
  ∈ listing (index viewer Sample.now
               (add_comment (F := Sample.forms) request 1 Sample.now Sample.db).2).
Proof.
  intros request viewer.
  apply (add_comment_then_index (F := Sample.forms) request viewer 1 Sample.now
           Sample.now Sample.db 1 Sample.alice Sample.post1
           eq_refl eq_refl eq_refl eq_refl).
  exists {| ap_pk := 1; ap_post := Sample.post1; comment_count := 1 |}.
  split; [vm_compute; left|]. by repeat split.
Defined.

Lemma delete_comment_then_post_detail_witness :
  let request := Sample.request POST Sample.as_bob [] [] in
  let viewer := Sample.request GET AnonymousUser [] [] in
  ∃ context' cs',
    post_detail viewer 1 Sample.now
      (delete_comment request 1 1 Sample.now Sample.db).2
    = render "blog/detail.html" context'
    ∧ ctx_comments context' = Some cs'
    ∧ (1%N, Sample.comment1) ∉ cs'.
Proof.
  intros request viewer.
  assert (post_detail viewer 1 Sample.now Sample.db
          = render "blog/detail.html"
              (with_post (1%N, Sample.post1)
                 (with_comments [(1%N, Sample.comment1)]
                    (with_form (unbound CommentForm None) ctx_empty))))
    as Hshown by (vm_compute; reflexivity).
  destruct (delete_comment_then_post_detail request viewer 1 1 Sample.now
              Sample.now Sample.db 2 Sample.bob Sample.post1 Sample.comment1
              eq_refl eq_refl eq_refl eq_refl eq_refl eq_refl _ _ _ Hshown eq_refl)
    as (context' & cs' & Hrender & _ & Hcs & Hiff).
  exists context', cs'. split; [exact Hrender|]. split; [exact Hcs|].
  intros [_ Hne]%Hiff. by apply Hne.
Defined.

Lemma PostCreateView_then_found_witness :
  let request :=
    Sample.request POST Sample.as_bob [] [("title", "Porto"); ("text", "...")] in
  let db' := (PostCreateView (F := Sample.forms) request Sample.now Sample.db).2 in
  ∃ k p, posts Sample.db !! k = None
         ∧ (∃ context, post_detail request k Sample.now db'
                       = render "blog/detail.html" context)
         ∧ ∃ a, ap_pk a = k ∧ ap_post a = p
                ∧ a ∈ listing (profile request "bob" Sample.now db').
Proof.
  intros request db'.
  destruct (PostCreateView_then_found (F := Sample.forms) request Sample.now
              Sample.now Sample.db 2 Sample.bob eq_refl (or_introl eq_refl)
              eq_refl eq_refl sample_username_unique)
    as (k & p & Hk & _ & _ & (context & Hrender & _) & Hlisted).
  exists k, p. split; [exact Hk|]. split; [by exists context|exact Hlisted].
Defined.

Lemma PostDeleteView_then_gone_witness :
  let request := Sample.request POST Sample.as_alice [] [] in
  let viewer := Sample.request GET AnonymousUser [] [] in
  post_detail viewer 1 Sample.now (PostDeleteView request 1 Sample.now Sample.db).2
  = Http404.
Proof.
  intros request viewer.
  exact (proj1 (PostDeleteView_then_gone (F := Sample.forms) request viewer 1
                  Sample.now Sample.now
                  Sample.db 1 Sample.alice Sample.post1 eq_refl eq_refl eq_refl
                  (or_introl eq_refl))).
Defined.

Lemma listed_posts_are_reachable_witness :
  let request := Sample.request GET AnonymousUser [] [] in
  let a := {| ap_pk := 1; ap_post := Sample.post1; comment_count := 1 |} in
  ∃ q, a ∈ shown (index (with_GET [("page", q)] request) Sample.now Sample.db).
Proof.
  intros request a.
  destruct (listed_posts_are_reachable request Sample.now Sample.db a) as [Hindex _].
  apply Hindex. vm_compute. left.
Defined.
